(** * CoinstoreMM: the request signer

    A shallow embedding of the request-signing code of the CoinstoreMM proxy
    ([src/src/index.ts] and [src/js/lasttrade.js]) together with the platform
    primitives it calls (Node's [crypto.createHmac], [Date.now],
    [Number.prototype.toString], [JSON.stringify], [axios]).

    Conventions.
    - A JavaScript string is modelled by a [string]: the sequence of the bytes
      of its UTF-8 encoding.  Every string that reaches the signer in this
      repository (environment variables, [URLSearchParams.toString()],
      [JSON.stringify] output, string literals) is well formed, and on well
      formed strings UTF-8 encoding commutes with concatenation.
    - A time value (the result of [Date.now()]) is an integer number of
      milliseconds, modelled by a [Z].  In the range of ECMAScript time values
      (|t| <= 8.64e15) the double-precision quotient [t / 30000] has the same
      floor as the exact quotient, and [Number.prototype.toString] of an
      integer is its plain decimal rendering. *)

From Stdlib Require Import ZArith List String Ascii Bool Lia.
From Stdlib Require Import DecimalString DecimalZ.
Import ListNotations.

Local Open Scope string_scope.
Local Open Scope list_scope.
Local Open Scope Z_scope.

(** ** Bytes and text *)

Definition bytes := list Z.

(** The UTF-8 bytes of a string: [Buffer.from(s, "utf8")]. *)
Definition Buffer_from_utf8 (s : string) : bytes :=
  map (fun c => Z.of_N (N_of_ascii c)) (list_ascii_of_string s).

Definition hexDigit (n : Z) : ascii :=
  nth (Z.to_nat n) (list_ascii_of_string "0123456789abcdef") "0"%char.

(** [buf.toString("hex")]: two lowercase hexadecimal digits per byte. *)
Fixpoint toHex (bs : bytes) : string :=
  match bs with
  | [] => EmptyString
  | b :: bs' => String (hexDigit (b / 16)) (String (hexDigit (b mod 16)) (toHex bs'))
  end.

Definition hexValue (c : ascii) : option Z :=
  let n := Z.of_N (N_of_ascii c) in
  if (48 <=? n) && (n <=? 57) then Some (n - 48)
  else if (97 <=? n) && (n <=? 102) then Some (n - 87)
  else if (65 <=? n) && (n <=? 70) then Some (n - 55)
  else None.

(** [Buffer.from(s, "hex")]: pairs of hexadecimal digits decoded to bytes, up
    to the first pair that is not hexadecimal. *)
Fixpoint Buffer_from_hex (s : string) : bytes :=
  match s with
  | String a (String b rest) =>
      match hexValue a, hexValue b with
      | Some x, Some y => (16 * x + y) :: Buffer_from_hex rest
      | _, _ => []
      end
  | _ => []
  end.

(** ** SHA-256 (FIPS 180-4), the hash behind [crypto.createHmac("sha256", _)] *)

Module SHA256.

Definition trunc32 (x : Z) : Z := Z.land x (Z.ones 32).
Definition add32 (x y : Z) : Z := trunc32 (x + y).
Definition rotr (n x : Z) : Z :=
  Z.lor (Z.shiftr x n) (trunc32 (Z.shiftl x (32 - n))).
Definition xor3 (x y z : Z) : Z := Z.lxor (Z.lxor x y) z.

Definition Ch (x y z : Z) : Z :=
  Z.lxor (Z.land x y) (Z.land (Z.lxor x (Z.ones 32)) z).
Definition Maj (x y z : Z) : Z :=
  xor3 (Z.land x y) (Z.land x z) (Z.land y z).
Definition bigSigma0 (x : Z) : Z := xor3 (rotr 2 x) (rotr 13 x) (rotr 22 x).
Definition bigSigma1 (x : Z) : Z := xor3 (rotr 6 x) (rotr 11 x) (rotr 25 x).
Definition smallSigma0 (x : Z) : Z := xor3 (rotr 7 x) (rotr 18 x) (Z.shiftr x 3).
Definition smallSigma1 (x : Z) : Z := xor3 (rotr 17 x) (rotr 19 x) (Z.shiftr x 10).

(** The eight chaining words. *)
Record regs : Set := Regs { r0 : Z; r1 : Z; r2 : Z; r3 : Z; r4 : Z; r5 : Z; r6 : Z; r7 : Z }.

Definition initial : regs :=
  Regs 0x6a09e667 0xbb67ae85 0x3c6ef372 0xa54ff53a
       0x510e527f 0x9b05688c 0x1f83d9ab 0x5be0cd19.

(** Padding: a 1 bit, zeros up to 56 mod 64 bytes, the bit length on 8 bytes. *)
Fixpoint bigEndian (n : nat) (x : Z) : bytes :=
  match n with
  | O => []
  | S n' => bigEndian n' (x / 256) ++ [x mod 256]
  end.

Definition pad (msg : bytes) : bytes :=
  let len := Z.of_nat (List.length msg) in
  msg ++ [0x80] ++ repeat 0 (Z.to_nat ((55 - len) mod 64)) ++ bigEndian 8 (8 * len).

(** Big-endian 32-bit words of a byte sequence whose length is a multiple of 4. *)
Fixpoint toWords (bs : bytes) : list Z :=
  match bs with
  | b0 :: b1 :: b2 :: b3 :: rest =>
      (((b0 * 256 + b1) * 256 + b2) * 256 + b3) :: toWords rest
  | _ => []
  end.

(** Round constants: the first 32 bits of the fractional parts of the cube
    roots of the first 64 primes, eight words per line. *)
Definition roundConstants : list Z :=
  toWords (Buffer_from_hex
    ("428a2f9871374491b5c0fbcfe9b5dba53956c25b59f111f1923f82a4ab1c5ed5" ++
     "d807aa9812835b01243185be550c7dc372be5d7480deb1fe9bdc06a7c19bf174" ++
     "e49b69c1efbe47860fc19dc6240ca1cc2de92c6f4a7484aa5cb0a9dc76f988da" ++
     "983e5152a831c66db00327c8bf597fc7c6e00bf3d5a7914706ca635114292967" ++
     "27b70a852e1b21384d2c6dfc53380d13650a7354766a0abb81c2c92e92722c85" ++
     "a2bfe8a1a81a664bc24b8b70c76c51a3d192e819d6990624f40e3585106aa070" ++
     "19a4c1161e376c082748774c34b0bcb5391c0cb34ed8aa4a5b9cca4f682e6ff3" ++
     "748f82ee78a5636f84c878148cc7020890befffaa4506cebbef9a3f7c67178f2")%string).

(** Message schedule: [win] holds the sixteen most recent words, oldest first. *)
Fixpoint expand (n : nat) (win : list Z) : list Z :=
  match n, win with
  | S n', w16 :: rest =>
      let wt := add32 (add32 (add32 (smallSigma1 (nth 13 rest 0)) (nth 8 rest 0))
                             (smallSigma0 (nth 0 rest 0))) w16 in
      wt :: expand n' (rest ++ [wt])
  | _, _ => []
  end.

Definition schedule (block : list Z) : list Z := block ++ expand 48 block.

Definition round (s : regs) (kw : Z * Z) : regs :=
  let '(Regs a b c d e f g h) := s in
  let t1 := add32 (add32 (add32 (add32 h (bigSigma1 e)) (Ch e f g)) (fst kw)) (snd kw) in
  let t2 := add32 (bigSigma0 a) (Maj a b c) in
  Regs (add32 t1 t2) a b c (add32 d t1) e f g.

Definition compress (s : regs) (block : list Z) : regs :=
  let '(Regs a b c d e f g h) := fold_left round (combine roundConstants (schedule block)) s in
  Regs (add32 (r0 s) a) (add32 (r1 s) b) (add32 (r2 s) c) (add32 (r3 s) d)
       (add32 (r4 s) e) (add32 (r5 s) f) (add32 (r6 s) g) (add32 (r7 s) h).

(** Consume the padded words sixteen at a time. *)
Fixpoint absorb (fuel : nat) (s : regs) (ws : list Z) : regs :=
  match fuel, ws with
  | S fuel', _ :: _ => absorb fuel' (compress s (firstn 16 ws)) (skipn 16 ws)
  | _, _ => s
  end.

Definition output (s : regs) : bytes :=
  flat_map (bigEndian 4) [r0 s; r1 s; r2 s; r3 s; r4 s; r5 s; r6 s; r7 s].

Definition sha256 (msg : bytes) : bytes :=
  let ws := toWords (pad msg) in
  output (absorb (List.length ws) initial ws).

End SHA256.

(** ** HMAC (RFC 2104) over SHA-256 *)

Module HMAC.

Definition blockKey (key : bytes) : bytes :=
  let k := if (64 <? Z.of_nat (List.length key)) then SHA256.sha256 key else key in
  k ++ repeat 0 (64 - List.length k)%nat.

Definition hmac_sha256 (key msg : bytes) : bytes :=
  let k := blockKey key in
  SHA256.sha256 (map (Z.lxor 0x5c) k ++ SHA256.sha256 (map (Z.lxor 0x36) k ++ msg)).

End HMAC.

(** ** JavaScript primitives *)

(** Truthiness of a string: [!s] holds exactly for the empty string. *)
Definition truthy (s : string) : bool :=
  match s with
  | EmptyString => false
  | String _ _ => true
  end.

(** [v || d] where [v] is a string or [undefined]. *)
Definition or_else (v : option string) (d : string) : string :=
  match v with
  | Some s => if truthy s then s else d
  | None => d
  end.

(** A destructuring default [{ x = d }]: it applies when the field is [undefined]. *)
Definition with_default (v : option string) (d : string) : string :=
  match v with
  | Some s => s
  | None => d
  end.

(** [Math.floor(x / y)] on integers, for a positive divisor. *)
Definition Math_floor_div (x y : Z) : Z := x / y.

(** [n.toString()] and [String(n)] for an integer [n]: plain decimal, with a
    minus sign for negative values. *)
Definition Number_toString (n : Z) : string := NilZero.string_of_int (Z.to_int n).

(** JSON values and [JSON.stringify] (compact form). *)
#[local] Unset Elimination Schemes.
Inductive Json : Type :=
| JNull
| JBool (b : bool)
| JNumber (n : Z)
| JString (s : string)
| JArray (items : list Json)
| JObject (fields : list (string * Json)).
#[local] Set Elimination Schemes.

Definition backslash : ascii := ascii_of_nat 92.
Definition doubleQuote : ascii := ascii_of_nat 34.

Definition escapeChar (c : ascii) : string :=
  let n := Z.of_N (N_of_ascii c) in
  if (n =? 34) then String backslash (String doubleQuote EmptyString)
  else if (n =? 92) then String backslash (String backslash EmptyString)
  else if (n =? 8) then String backslash "b"
  else if (n =? 9) then String backslash "t"
  else if (n =? 10) then String backslash "n"
  else if (n =? 12) then String backslash "f"
  else if (n =? 13) then String backslash "r"
  else if (n <? 32) then
    String backslash ("u00" ++ String (hexDigit (n / 16)) (String (hexDigit (n mod 16)) EmptyString))
  else String c EmptyString.

Definition quoteJSONString (s : string) : string :=
  String doubleQuote
    (String.concat EmptyString (map escapeChar (list_ascii_of_string s))
     ++ String doubleQuote EmptyString).

Fixpoint JSON_stringify (v : Json) : string :=
  match v with
  | JNull => "null"
  | JBool true => "true"
  | JBool false => "false"
  | JNumber n => Number_toString n
  | JString s => quoteJSONString s
  | JArray items => "[" ++ String.concat "," (map JSON_stringify items) ++ "]"
  | JObject fields =>
      "{" ++ String.concat ","
               (map (fun '(k, x) => quoteJSONString k ++ ":" ++ JSON_stringify x) fields)
          ++ "}"
  end%string.

(** ** Node's [crypto.Hmac] objects *)

(** The key handed to [crypto.createHmac]: a string (encoded as UTF-8 by Node)
    or a [Buffer]. *)
Inductive KeyArg : Type :=
| KeyString (s : string)
| KeyBuffer (b : bytes).

Record Hmac : Type := { hkey : bytes; hdata : bytes }.

Definition createHmac_sha256 (key : KeyArg) : Hmac :=
  {| hkey := match key with KeyString s => Buffer_from_utf8 s | KeyBuffer b => b end;
     hdata := [] |}.

Definition update (h : Hmac) (data : string) : Hmac :=
  {| hkey := hkey h; hdata := hdata h ++ Buffer_from_utf8 data |}.

(** What [h.digest("hex")] evaluates to. *)
Definition digest_hex (h : Hmac) : string := toHex (HMAC.hmac_sha256 (hkey h) (hdata h)).

(** Lowercase-hex HMAC-SHA256 of the text [msg] keyed by the text [key]. *)
Definition hmacSha256Hex (key msg : string) : string :=
  digest_hex (update (createHmac_sha256 (KeyString key)) msg).

(** ** Headers, requests, errors *)

Record SignHeaders : Type := {
  X_CS_APIKEY : string;
  X_CS_EXPIRES : string;
  X_CS_SIGN : string;
  Content_Type : string
}.

Inductive exn : Type :=
| Error (message : string)
| AxiosError (message : string) (response_data : option Json).

Inductive Verb : Type := GET | POST.

Record Request : Type := {
  verb : Verb;
  url : string;
  data : option Json;
  headers : SignHeaders;
  timeout : option Z
}.

(** ** Programs over the platform

    The code reads the clock, asks [crypto] for digests, sends HTTP requests and
    writes to the console.  A program is the tree of these calls. *)

Inductive Console : Type :=
| LogJson (v : Json)
| LogText (s : string).

Inductive Prog (A : Type) : Type :=
| Ret (a : A)
| Throw (e : exn)
| Date_now (k : Z -> Prog A)
| Digest (h : Hmac) (k : string -> Prog A)
| Axios (r : Request) (k : Json -> Prog A)
| Log (c : Console) (k : Prog A).

Arguments Ret {A} a.
Arguments Throw {A} e.
Arguments Date_now {A} k.
Arguments Digest {A} h k.
Arguments Axios {A} r k.
Arguments Log {A} c k.

Fixpoint bind {A B : Type} (p : Prog A) (f : A -> Prog B) : Prog B :=
  match p with
  | Ret a => f a
  | Throw e => Throw e
  | Date_now k => Date_now (fun t => bind (k t) f)
  | Digest h k => Digest h (fun s => bind (k s) f)
  | Axios r k => Axios r (fun v => bind (k v) f)
  | Log c k => Log c (bind k f)
  end.

(** [try { p } catch (err) { handler err }] *)
Fixpoint try_catch {A : Type} (p : Prog A) (handler : exn -> Prog A) : Prog A :=
  match p with
  | Ret a => Ret a
  | Throw e => handler e
  | Date_now k => Date_now (fun t => try_catch (k t) handler)
  | Digest h k => Digest h (fun s => try_catch (k s) handler)
  | Axios r k => Axios r (fun v => try_catch (k v) handler)
  | Log c k => Log c (try_catch k handler)
  end.

Declare Scope prog_scope.
Delimit Scope prog_scope with prog.
Notation "x <- p ;; q" := (bind p (fun x => q))
  (at level 61, p at next level, right associativity) : prog_scope.
Local Open Scope prog_scope.

Definition now : Prog Z := Date_now Ret.
Definition digest (h : Hmac) : Prog string := Digest h Ret.
Definition axios_get (u : string) (hs : SignHeaders) (t : option Z) : Prog Json :=
  Axios {| verb := GET; url := u; data := None; headers := hs; timeout := t |} Ret.
Definition axios_post (u : string) (d : Json) (hs : SignHeaders) (t : option Z) : Prog Json :=
  Axios {| verb := POST; url := u; data := Some d; headers := hs; timeout := t |} Ret.
Definition console (c : Console) : Prog unit := Log c (Ret tt).

(** The platform a program runs on: the clock reading during the call and the
    remote service's answer to each request. *)
Record Platform : Type := {
  clock : Z;
  network : Request -> exn + Json
}.

Inductive Event : Type :=
| EvNow (t : Z)
| EvDigest (h : Hmac) (hex : string)
| EvRequest (r : Request)
| EvConsole (c : Console).

(** Running a program: the calls it made, in order, and how it ended. *)
Fixpoint run {A : Type} (w : Platform) (p : Prog A) : list Event * (exn + A) :=
  match p with
  | Ret a => ([], inr a)
  | Throw e => ([], inl e)
  | Date_now k =>
      let r := run w (k (clock w)) in (EvNow (clock w) :: fst r, snd r)
  | Digest h k =>
      let r := run w (k (digest_hex h)) in (EvDigest h (digest_hex h) :: fst r, snd r)
  | Axios q k =>
      match network w q with
      | inl e => ([EvRequest q], inl e)
      | inr v => let r := run w (k v) in (EvRequest q :: fst r, snd r)
      end
  | Log c k =>
      let r := run w k in (EvConsole c :: fst r, snd r)
  end.

Definition trace {A : Type} (w : Platform) (p : Prog A) : list Event := fst (run w p).
Definition result {A : Type} (w : Platform) (p : Prog A) : exn + A := snd (run w p).

(** The digests a run computed, in order. *)
Fixpoint digests (tr : list Event) : list (Hmac * string) :=
  match tr with
  | [] => []
  | EvDigest h s :: tr' => (h, s) :: digests tr'
  | _ :: tr' => digests tr'
  end.

(** ** Process configuration

    Both servers read the same three environment variables once at start-up:
    [process.env.CS_BASE_URL || "https://api.coinstore.com/api"],
    [process.env.CS_API_KEY] and [process.env.CS_API_SECRET], each defaulting to
    the empty string. *)

Record Config : Type := {
  BASE_URL : string;
  API_KEY : string;
  API_SECRET : string
}.

Definition loadConfig (env : string -> option string) : Config :=
  {| BASE_URL := or_else (env "CS_BASE_URL") "https://api.coinstore.com/api";
     API_KEY := or_else (env "CS_API_KEY") EmptyString;
     API_SECRET := or_else (env "CS_API_SECRET") EmptyString |}.

(** ** [src/src/index.ts] *)

Module Index.

Record SignParams : Type := {
  method : string;
  queryString : option string;
  body : option string
}.

Section WithConfig.
Variable cfg : Config.

Definition computeSignHeaders (p : SignParams) : Prog SignHeaders :=
  let queryString := with_default (queryString p) EmptyString in
  let body := with_default (body p) EmptyString in
  if negb (truthy (API_KEY cfg)) || negb (truthy (API_SECRET cfg)) then
    Throw (Error "Missing CS_API_KEY/CS_API_SECRET")
  else
    expires <- now ;;
    let timeBucket := Number_toString (Math_floor_div expires 30000) in
    let hmac1 := createHmac_sha256 (KeyString (API_SECRET cfg)) in
    let hmac1 := update hmac1 timeBucket in
    key <- digest hmac1 ;;
    let payload := (queryString ++ body)%string in
    let hmac2 := createHmac_sha256 (KeyString key) in
    let hmac2 := update hmac2 payload in
    sign <- digest hmac2 ;;
    Ret {| X_CS_APIKEY := API_KEY cfg;
           X_CS_EXPIRES := Number_toString expires;
           X_CS_SIGN := sign;
           Content_Type := "application/json" |}.

Definition getBalances : Prog Json :=
  let path := "/spot/accountList" in
  let url := (BASE_URL cfg ++ path)%string in
  headers <- computeSignHeaders
               {| method := "GET"; queryString := Some EmptyString; body := Some EmptyString |} ;;
  response_data <- axios_get url headers (Some 10000) ;;
  Ret response_data.

End WithConfig.

End Index.

(** ** [src/js/lasttrade.js] *)

Module Lasttrade.

(** [err.response?.data || err.message] *)
Definition json_truthy (v : Json) : bool :=
  match v with
  | JNull => false
  | JBool b => b
  | JNumber n => negb (n =? 0)
  | JString s => truthy s
  | JArray _ | JObject _ => true
  end.

Definition describe (err : exn) : Console :=
  match err with
  | AxiosError m (Some d) => if json_truthy d then LogJson d else LogText m
  | AxiosError m None => LogText m
  | Error m => LogText m
  end.

(** The stand-alone script. *)
Definition main : Prog unit :=
  let url := "https://api.coinstore.com/api/trade/match/accountMatches?symbol=PPOUSDT" in
  let apiKey := "ad559bf0b78866a137e4ad5e3fcbcfda" in
  let secretKey := "506cebf2251fc7fabbc80a68a72988c7" in
  expires <- now ;;
  let expiresKey := Number_toString (Math_floor_div expires 30000) in
  key <- digest (update (createHmac_sha256 (KeyString secretKey)) expiresKey) ;;
  let payload := "symbol=PPOUSDT" in
  signature <- digest (update (createHmac_sha256 (KeyBuffer (Buffer_from_utf8 key))) payload) ;;
  let headers := {| X_CS_APIKEY := apiKey;
                    X_CS_SIGN := signature;
                    X_CS_EXPIRES := Number_toString expires;
                    Content_Type := "application/json" |} in
  try_catch
    (response_data <- axios_get url headers None ;;
     console (LogJson response_data))
    (fun err => console (describe err)).

(** The argument of [createSignedHeaders]: it has no [method] field. *)
Record SignArgs : Type := {
  queryString : option string;
  body : option string
}.

Section WithConfig.
Variable cfg : Config.

Definition createSignedHeaders (p : SignArgs) : Prog SignHeaders :=
  let queryString := with_default (queryString p) EmptyString in
  let body := with_default (body p) EmptyString in
  expires <- now ;;
  let timeBucket := Number_toString (Math_floor_div expires 30000) in
  let hmac1 := createHmac_sha256 (KeyString (API_SECRET cfg)) in
  let hmac1 := update hmac1 timeBucket in
  key <- digest hmac1 ;;
  let payload := (queryString ++ body)%string in
  let hmac2 := createHmac_sha256 (KeyString key) in
  let hmac2 := update hmac2 payload in
  sign <- digest hmac2 ;;
  let headers := {| X_CS_APIKEY := API_KEY cfg;
                    X_CS_EXPIRES := Number_toString expires;
                    X_CS_SIGN := sign;
                    Content_Type := "application/json" |} in
  Ret headers.

Definition getBalances : Prog Json :=
  let path := "/spot/accountList" in
  let url := (BASE_URL cfg ++ path)%string in
  let bodyStr := JSON_stringify (JObject []) in
  headers <- createSignedHeaders {| queryString := Some EmptyString; body := Some bodyStr |} ;;
  resp_data <- axios_post url (JObject []) headers (Some 10000) ;;
  Ret resp_data.

End WithConfig.

End Lasttrade.

(** ** The signing scheme in the words of the specification

    Section 4.1 of the specification, steps 1 to 7, with the credentials, the
    sign request and the timestamp as explicit arguments. *)

Module Spec.

Definition timeBucket (nowMillis : Z) : string :=
  Number_toString (nowMillis / 30000).

(** Step 4: HMAC-SHA256 keyed by the secret over the bucket's decimal string,
    as lowercase hexadecimal. *)
Definition derivedKey (apiSecret : string) (nowMillis : Z) : string :=
  toHex (HMAC.hmac_sha256 (Buffer_from_utf8 apiSecret)
                          (Buffer_from_utf8 (timeBucket nowMillis))).

(** Step 5: the literal concatenation. *)
Definition payload (queryString body : string) : string :=
  (queryString ++ body)%string.

(** Step 6: HMAC-SHA256 keyed by the UTF-8 bytes of the derived key's hex
    text, over the payload, as lowercase hexadecimal. *)
Definition signature (apiSecret : string) (nowMillis : Z) (queryString body : string) : string :=
  toHex (HMAC.hmac_sha256 (Buffer_from_utf8 (derivedKey apiSecret nowMillis))
                          (Buffer_from_utf8 (payload queryString body))).

Definition signedHeaders (apiKey apiSecret : string) (nowMillis : Z)
                         (queryString body : string) : SignHeaders :=
  {| X_CS_APIKEY := apiKey;
     X_CS_EXPIRES := Number_toString nowMillis;
     X_CS_SIGN := signature apiSecret nowMillis queryString body;
     Content_Type := "application/json" |}.

Definition ConfigurationError : exn := Error "Missing CS_API_KEY/CS_API_SECRET".

Definition computeSignedHeaders (apiKey apiSecret : string) (queryString body : string)
                                (nowMillis : Z) : exn + SignHeaders :=
  match apiKey, apiSecret with
  | EmptyString, _ | _, EmptyString => inl ConfigurationError
  | _, _ => inr (signedHeaders apiKey apiSecret nowMillis queryString body)
  end.

End Spec.

(** ** Observations on runs and on text *)

(** The two [Hmac] objects the signer builds. *)
Definition firstRound (apiSecret : string) (t : Z) : Hmac :=
  update (createHmac_sha256 (KeyString apiSecret)) (Number_toString (Math_floor_div t 30000)).

Definition secondRound (key payload : string) : Hmac :=
  update (createHmac_sha256 (KeyString key)) payload.

(** The message of the last digest of a run: what the final HMAC signed. *)
Definition signedMessage (tr : list Event) : option bytes :=
  last (map (fun d => Some (hdata (fst d))) (digests tr)) None.

(** The key of the last digest of a run. *)
Definition signingKey (tr : list Event) : option bytes :=
  last (map (fun d => Some (hkey (fst d))) (digests tr)) None.

(** The sign and expires header of a run that returned headers. *)
Definition signOf (r : exn + SignHeaders) : option string :=
  match r with inr h => Some (X_CS_SIGN h) | inl _ => None end.

Definition expiresOf (r : exn + SignHeaders) : option string :=
  match r with inr h => Some (X_CS_EXPIRES h) | inl _ => None end.

(** The output of the first digest of a run: the derived key. *)
Definition derivedKeyOf (tr : list Event) : option string :=
  match digests tr with
  | (_, k) :: _ => Some k
  | [] => None
  end.

(** The headers carried by the requests of a run. *)
Fixpoint requestHeaders (tr : list Event) : list SignHeaders :=
  match tr with
  | [] => []
  | EvRequest r :: tr' => headers r :: requestHeaders tr'
  | _ :: tr' => requestHeaders tr'
  end.

(** The calls a successful signer run makes: one clock reading, two digests. *)
Definition signerTrace (apiSecret : string) (t : Z) (payload : string) : list Event :=
  let h1 := firstRound apiSecret t in
  let h2 := secondRound (digest_hex h1) payload in
  [EvNow t; EvDigest h1 (digest_hex h1); EvDigest h2 (digest_hex h2)].

Definition credentialsPresent (cfg : Config) : bool :=
  truthy (API_KEY cfg) && truthy (API_SECRET cfg).

(** Calling [f] twice in a row and keeping both results. *)
Definition twice {A : Type} (f : Prog A) : Prog (A * A) :=
  a <- f ;; b <- f ;; Ret (a, b).

Definition isLowerHex (c : ascii) : bool :=
  existsb (Ascii.eqb c) (list_ascii_of_string "0123456789abcdef").

Definition lowerHexText (s : string) : bool :=
  forallb isLowerHex (list_ascii_of_string s).

Definition isByte (b : Z) : Prop := 0 <= b < 256.

(** ** [URLSearchParams.prototype.toString]

    The application/x-www-form-urlencoded serializer of the URL standard, on
    the UTF-8 bytes of names and values: a space becomes [+], the letters, the
    digits and [* - . _] stay, every other byte becomes [%XX] with uppercase
    hexadecimal digits; a pair is [name=value], pairs are joined by [&].  The
    argument lists the own properties of the object given to the constructor,
    in their enumeration order. *)

Definition hexDigitUpper (n : Z) : ascii :=
  nth (Z.to_nat n) (list_ascii_of_string "0123456789ABCDEF") "0"%char.

Definition formSafe (n : Z) : bool :=
  (n =? 42) || (n =? 45) || (n =? 46) || (n =? 95)
  || ((48 <=? n) && (n <=? 57)) || ((65 <=? n) && (n <=? 90)) || ((97 <=? n) && (n <=? 122)).

Definition formEncodeChar (c : ascii) : string :=
  let n := Z.of_N (N_of_ascii c) in
  if (n =? 32) then "+"
  else if formSafe n then String c EmptyString
  else String "%" (String (hexDigitUpper (n / 16)) (String (hexDigitUpper (n mod 16)) EmptyString)).

Definition formEncode (s : string) : string :=
  String.concat EmptyString (map formEncodeChar (list_ascii_of_string s)).

Definition URLSearchParams_toString (params : list (string * string)) : string :=
  String.concat "&" (map (fun '(k, v) => (formEncode k ++ "=" ++ formEncode v)%string) params).

(** The matching parser of the URL standard, as the remote service applies it
    to one name or value: [+] is a space, [%XX] is the byte XX. *)
Fixpoint formDecode (s : string) : string :=
  match s with
  | EmptyString => EmptyString
  | String c rest =>
      if Ascii.eqb c "+" then String " " (formDecode rest)
      else if Ascii.eqb c "%" then
        match rest with
        | String a (String b rest') =>
            match hexValue a, hexValue b with
            | Some x, Some y => String (ascii_of_N (Z.to_N (16 * x + y))) (formDecode rest')
            | _, _ => String c (formDecode rest)
            end
        | _ => String c (formDecode rest)
        end
      else String c (formDecode rest)
  end.

(** The characters a serialized query may contain. *)
Definition isQueryChar (c : ascii) : bool :=
  let n := Z.of_N (N_of_ascii c) in
  formSafe n || (n =? 43) || (n =? 37) || (n =? 61) || (n =? 38).

(** Every character of [s] satisfies [P]. *)
Definition allChars (P : ascii -> bool) (s : string) : bool :=
  forallb P (list_ascii_of_string s).

(** Only letters, digits and [* - . _]: text the serializer leaves alone. *)
Definition plainText (s : string) : bool :=
  allChars (fun c => formSafe (Z.of_N (N_of_ascii c))) s.

(** Reading a decimal header back, as the remote service does with the
    expires header. *)
Definition parseDecimal (s : string) : option Z :=
  option_map Z.of_int (NilZero.int_of_string s).

(** ** Route handlers

    A handler awaits calls inside [try]/[catch], so it is written over the
    outcomes of programs: the calls made so far and the value or exception
    reached.  [perform] runs a program; [catch] continues with the handler when
    the body ended with an exception, whether thrown by the code or by a
    rejected request. *)

Definition M (A : Type) : Type := Platform -> list Event * (exn + A).

Definition perform {A : Type} (p : Prog A) : M A := fun w => run w p.

Definition pure {A : Type} (a : A) : M A := fun _ => ([], inr a).

Definition andThen {A B : Type} (m : M A) (f : A -> M B) : M B :=
  fun w =>
    match m w with
    | (tr, inr a) => let r := f a w in (tr ++ fst r, snd r)
    | (tr, inl e) => (tr, inl e)
    end.

Definition catch {A : Type} (m : M A) (handler : exn -> M A) : M A :=
  fun w =>
    match m w with
    | (tr, inr a) => (tr, inr a)
    | (tr, inl e) => let r := handler e w in (tr ++ fst r, snd r)
    end.

Declare Scope handler_scope.
Delimit Scope handler_scope with handler.
Notation "x <- m ;; k" := (andThen m (fun x => k))
  (at level 61, m at next level, right associativity) : handler_scope.

(** What a handler sees of the Express request, and what it sends. *)
Record ExpressRequest : Type := {
  query : string -> option string;
  requestBody : option Json
}.

Record ExpressResponse : Type := {
  statusCode : Z;
  sent : Json
}.

(** [res.json(v)] and [res.status(code).json(v)]. *)
Definition res_json (v : Json) : M ExpressResponse :=
  pure {| statusCode := 200; sent := v |}.

Definition res_status_json (code : Z) (v : Json) : M ExpressResponse :=
  pure {| statusCode := code; sent := v |}.

(** [error?.response?.data || error.message] as a JSON value. *)
Definition errorData (e : exn) : Json :=
  match e with
  | AxiosError m (Some d) => if Lasttrade.json_truthy d then d else JString m
  | AxiosError m None => JString m
  | Error m => JString m
  end.

(** [console.error(label, error?.response?.data || error.message)], recorded as
    the two values it prints, in order. *)
Definition console_error (label : string) (e : exn) : M unit :=
  (_ <- perform (console (LogText label)) ;; perform (console (Lasttrade.describe e)))%handler.

(** [if (v) params.name = v], as the entries it adds. *)
Definition optionalParam (name : string) (v : option string) : list (string * string) :=
  match v with
  | Some s => if truthy s then [(name, s)] else []
  | None => []
  end.

(** ** The rest of [src/src/index.ts] *)

Module IndexServer.

Section WithConfig.
Variable cfg : Config.
(** The value of [process.env.CS_SYMBOL], read at each request. *)
Variable CS_SYMBOL : option string.

Definition getCurrentOrdersV2 (params : list (string * string)) : Prog Json :=
  let qs := URLSearchParams_toString params in
  let path := "/trade/order/current/v2" in
  let pathWithQuery := if truthy qs then ("?" ++ qs)%string else EmptyString in
  let url := (BASE_URL cfg ++ path ++ pathWithQuery)%string in
  headers <- Index.computeSignHeaders cfg
               {| Index.method := "GET"; Index.queryString := Some qs;
                  Index.body := Some EmptyString |} ;;
  response_data <- axios_get url headers (Some 10000) ;;
  Ret response_data.

Definition getLatestTrades (params : list (string * string)) : Prog Json :=
  let qs := URLSearchParams_toString params in
  let path := "/trade/order/trades/latest" in
  let pathWithQuery := if truthy qs then ("?" ++ qs)%string else EmptyString in
  let url := (BASE_URL cfg ++ path ++ pathWithQuery)%string in
  headers <- Index.computeSignHeaders cfg
               {| Index.method := "GET"; Index.queryString := Some qs;
                  Index.body := Some EmptyString |} ;;
  response_data <- axios_get url headers (Some 10000) ;;
  Ret response_data.

(** [app.get("/api/balances", ...)] *)
Definition get_api_balances (req : ExpressRequest) : M ExpressResponse :=
  catch
    (balances <- perform (Index.getBalances cfg) ;;
     res_json balances)%handler
    (fun error =>
       (_ <- console_error "Error fetching balances:" error ;;
        res_status_json 500
          (JObject [("error", JString "Failed to fetch balances");
                    ("message", errorData error)]))%handler).

(** [app.get("/api/orders", ...)], with its fallback endpoint. *)
Definition get_api_orders (req : ExpressRequest) : M ExpressResponse :=
  catch
    (let symbol := or_else (query req "symbol") (or_else CS_SYMBOL EmptyString) in
     orders <- perform (getCurrentOrdersV2 (if truthy symbol then [("symbol", symbol)] else [])) ;;
     res_json orders)%handler
    (fun error =>
       (_ <- console_error "Error fetching orders:" error ;;
        catch
          (let symbol := or_else (query req "symbol") (or_else CS_SYMBOL EmptyString) in
           let qs := URLSearchParams_toString
                       (if truthy symbol then [("symbol", symbol)] else []) in
           let path := "/trade/order/current" in
           let url := (BASE_URL cfg ++ path
                       ++ (if truthy qs then ("?" ++ qs)%string else EmptyString))%string in
           headers <- perform (Index.computeSignHeaders cfg
                                 {| Index.method := "GET"; Index.queryString := Some qs;
                                    Index.body := Some EmptyString |}) ;;
           response_data <- perform (axios_get url headers (Some 10000)) ;;
           res_json response_data)
          (fun fallbackError =>
             res_status_json 500
               (JObject [("error", JString "Failed to fetch orders");
                         ("message", errorData fallbackError)])))%handler).

(** [app.get("/api/trades", ...)] *)
Definition get_api_trades (req : ExpressRequest) : M ExpressResponse :=
  catch
    (let params := optionalParam "symbol" (query req "symbol")
                   ++ optionalParam "limit" (query req "limit") in
     trades <- perform (getLatestTrades params) ;;
     res_json trades)%handler
    (fun error =>
       (_ <- console_error "Error fetching trades:" error ;;
        res_status_json 500
          (JObject [("error", JString "Failed to fetch trades");
                    ("message", errorData error)]))%handler).

End WithConfig.

End IndexServer.

(** ** The rest of [src/js/lasttrade.js] *)

Module LasttradeServer.

Section WithConfig.
Variable cfg : Config.

Definition apiGet (path : string) (params : list (string * string)) : Prog Json :=
  let qs := URLSearchParams_toString params in
  let fullPath := if truthy qs then (path ++ "?" ++ qs)%string else path in
  let url := (BASE_URL cfg ++ fullPath)%string in
  headers <- Lasttrade.createSignedHeaders cfg
               {| Lasttrade.queryString := Some qs; Lasttrade.body := Some EmptyString |} ;;
  resp_data <- axios_get url headers (Some 10000) ;;
  Ret resp_data.

(** [bodyObj] and [params] default to the empty object. *)
Definition apiPost (path : string) (bodyObj : option Json) (params : list (string * string))
  : Prog Json :=
  let bodyObj := match bodyObj with Some b => b | None => JObject [] end in
  let qs := URLSearchParams_toString params in
  let fullPath := if truthy qs then (path ++ "?" ++ qs)%string else path in
  let url := (BASE_URL cfg ++ fullPath)%string in
  let bodyStr := JSON_stringify bodyObj in
  headers <- Lasttrade.createSignedHeaders cfg
               {| Lasttrade.queryString := Some qs; Lasttrade.body := Some bodyStr |} ;;
  resp_data <- axios_post url bodyObj headers (Some 10000) ;;
  Ret resp_data.

Definition getCurrentOrders (params : list (string * string)) : Prog Json :=
  apiGet "/v2/trade/order/active" params.

Definition getLatestTrades (params : list (string * string)) : Prog Json :=
  apiGet "/trade/match/accountMatches" params.

Definition placeOrder (orderParams : option Json) : Prog Json :=
  apiPost "/trade/order/place" orderParams [].

Definition cancelOrder (cancelParams : option Json) : Prog Json :=
  apiPost "/trade/order/cancel" cancelParams [].

(** The shape shared by the five routes: [res.json(data)], or on an exception
    the console line and [res.status(500).json({ error: ... })]. *)
Definition get_api_balances (req : ExpressRequest) : M ExpressResponse :=
  catch
    (data <- perform (Lasttrade.getBalances cfg) ;; res_json data)%handler
    (fun err =>
       (_ <- console_error "Error /api/balances:" err ;;
        res_status_json 500 (JObject [("error", errorData err)]))%handler).

Definition get_api_orders (req : ExpressRequest) : M ExpressResponse :=
  let params := optionalParam "symbol" (query req "symbol") in
  catch
    (data <- perform (getCurrentOrders params) ;; res_json data)%handler
    (fun err =>
       (_ <- console_error "Error /api/orders:" err ;;
        res_status_json 500 (JObject [("error", errorData err)]))%handler).

Definition get_api_trades (req : ExpressRequest) : M ExpressResponse :=
  let params := optionalParam "symbol" (query req "symbol")
                ++ optionalParam "limit" (query req "limit") in
  catch
    (data <- perform (getLatestTrades params) ;; res_json data)%handler
    (fun err =>
       (_ <- console_error "Error /api/trades:" err ;;
        res_status_json 500 (JObject [("error", errorData err)]))%handler).

Definition post_api_order_place (req : ExpressRequest) : M ExpressResponse :=
  catch
    (let orderParams := requestBody req in
     data <- perform (placeOrder orderParams) ;; res_json data)%handler
    (fun err =>
       (_ <- console_error "Error /api/order/place:" err ;;
        res_status_json 500 (JObject [("error", errorData err)]))%handler).

Definition post_api_order_cancel (req : ExpressRequest) : M ExpressResponse :=
  catch
    (data <- perform (cancelOrder (requestBody req)) ;; res_json data)%handler
    (fun err =>
       (_ <- console_error "Error /api/order/cancel:" err ;;
        res_status_json 500 (JObject [("error", errorData err)]))%handler).

End WithConfig.

End LasttradeServer.

(** ** The script of [src/js/lasttrade.js], with its [try]/[catch]

    [Lasttrade.main] lists the calls of the script up to its request.  Here the
    awaited request sits inside the [try], so that a rejected request reaches
    the [catch] and is printed. *)

Module LasttradeScript.

Definition main : M unit :=
  (let url := "https://api.coinstore.com/api/trade/match/accountMatches?symbol=PPOUSDT" in
   let apiKey := "ad559bf0b78866a137e4ad5e3fcbcfda" in
   let secretKey := "506cebf2251fc7fabbc80a68a72988c7" in
   expires <- perform now ;;
   let expiresKey := Number_toString (Math_floor_div expires 30000) in
   key <- perform (digest (update (createHmac_sha256 (KeyString secretKey)) expiresKey)) ;;
   let payload := "symbol=PPOUSDT" in
   signature <- perform (digest (update (createHmac_sha256 (KeyBuffer (Buffer_from_utf8 key)))
                                        payload)) ;;
   let headers := {| X_CS_APIKEY := apiKey;
                     X_CS_SIGN := signature;
                     X_CS_EXPIRES := Number_toString expires;
                     Content_Type := "application/json" |} in
   catch
     (response_data <- perform (axios_get url headers None) ;;
      perform (console (LogJson response_data)))
     (fun err => perform (console (Lasttrade.describe err))))%handler.


End LasttradeScript.

(** The requests of a run, in order. *)
Fixpoint requests (tr : list Event) : list Request :=
  match tr with
  | [] => []
  | EvRequest r :: tr' => r :: requests tr'
  | _ :: tr' => requests tr'
  end.

(** The request a signed GET or POST sends. *)
Definition signedRequest (cfg : Config) (t : Z) (v : Verb) (u queryString : string)
           (bodyObj : option Json) (bodyStr : string) : Request :=
  {| verb := v;
     url := u;
     data := bodyObj;
     headers := Spec.signedHeaders (API_KEY cfg) (API_SECRET cfg) t queryString bodyStr;
     timeout := Some 10000 |}.

(** The query string and the two candidate requests of the orders route of
    index.ts: the symbol comes from the request, else from [CS_SYMBOL]. *)
Definition ordersQuery (CS_SYMBOL : option string) (req : ExpressRequest) : string :=
  let symbol := or_else (query req "symbol") (or_else CS_SYMBOL EmptyString) in
  URLSearchParams_toString (if truthy symbol then [("symbol", symbol)] else []).

Definition ordersRequest (cfg : Config) (CS_SYMBOL : option string) (req : ExpressRequest)
           (t : Z) (path : string) : Request :=
  let qs := ordersQuery CS_SYMBOL req in
  signedRequest cfg t GET
    (BASE_URL cfg ++ path ++ (if truthy qs then "?" ++ qs else EmptyString))%string
    qs None EmptyString.

(** The two answers of the routes. *)
Definition ok (v : Json) : ExpressResponse := {| statusCode := 200; sent := v |}.

Definition failed (v : Json) : ExpressResponse := {| statusCode := 500; sent := v |}.


(** ** Checks of the primitives on known values *)

Example roundConstants_ends :
  List.length SHA256.roundConstants = 64%nat
  /\ hd 0 SHA256.roundConstants = 0x428a2f98
  /\ last SHA256.roundConstants 0 = 0xc67178f2.
Proof. vm_compute. repeat split. Qed.

Example sha256_abc :
  toHex (SHA256.sha256 (Buffer_from_utf8 "abc"))
  = "ba7816bf8f01cfea414140de5dae2223b00361a396177a9cb410ff61f20015ad".
Proof. vm_compute. reflexivity. Qed.

Example hmac_rfc4231_case2 :
  toHex (HMAC.hmac_sha256 (Buffer_from_utf8 "Jefe")
                          (Buffer_from_utf8 "what do ya want for nothing?"))
  = "5bdcc146bf60754e6a042426089575c75a003f089d2739839dec58b964ec3843".
Proof. vm_compute. reflexivity. Qed.

Example stringify_empty_object : JSON_stringify (JObject []) = "{}".
Proof. reflexivity. Qed.

Example stringify_order :
  JSON_stringify (JObject [("symbol", JString "PPOUSDT"); ("ordId", JNumber 1844524655575492)])
  = String.concat EmptyString
      ["{"; quoteJSONString "symbol"; ":"; quoteJSONString "PPOUSDT"; ",";
       quoteJSONString "ordId"; ":1844524655575492}"].
Proof. vm_compute. reflexivity. Qed.

Example bucket_of_1700000000000 :
  Number_toString (Math_floor_div 1700000000000 30000) = "56666666".
Proof. reflexivity. Qed.

Example toString_negative : Number_toString (Math_floor_div (-1) 30000) = "-1".
Proof. reflexivity. Qed.

(** The derived key and the signature of the end-to-end scenario, as computed
    independently with a reference HMAC-SHA256. *)
Example scenario_derived_key :
  hmacSha256Hex "s" "56666666"
  = "1b957df909a197f310ac4c2b061434ed4dd2a4a3214b7e51ad415e119ec3d71d".
Proof. vm_compute. reflexivity. Qed.

Example scenario_signature :
  hmacSha256Hex (hmacSha256Hex "s" "56666666") "symbol=BTCUSDT"
  = "31d9b6ff037830390264d7a2e5f4d73533ff329e062f6dea6285bfcb9eba02f3".
Proof. vm_compute. reflexivity. Qed.

(** ** Facts about text and bytes *)

Lemma list_ascii_of_string_app (a b : string) :
  list_ascii_of_string (a ++ b) = list_ascii_of_string a ++ list_ascii_of_string b.
Proof.
  induction a as [|c a IH]; simpl; [reflexivity|]. now rewrite IH.
Qed.

Lemma Buffer_from_utf8_app (a b : string) :
  Buffer_from_utf8 (a ++ b) = Buffer_from_utf8 a ++ Buffer_from_utf8 b.
Proof.
  unfold Buffer_from_utf8. now rewrite list_ascii_of_string_app, map_app.
Qed.

Lemma Buffer_from_utf8_length (s : string) :
  List.length (Buffer_from_utf8 s) = String.length s.
Proof.
  unfold Buffer_from_utf8. rewrite length_map.
  induction s as [|c s IH]; simpl; congruence.
Qed.

Lemma Buffer_from_utf8_inj (a b : string) :
  Buffer_from_utf8 a = Buffer_from_utf8 b -> a = b.
Proof.
  unfold Buffer_from_utf8. revert b.
  induction a as [|c a IH]; intros [|d b]; simpl; try discriminate; [reflexivity|].
  intros H. injection H as Hc Hrest.
  apply N2Z.inj in Hc.
  f_equal; [|now apply IH].
  rewrite <- (ascii_N_embedding c), <- (ascii_N_embedding d). now rewrite Hc.
Qed.

Lemma toHex_length (bs : bytes) :
  String.length (toHex bs) = (2 * List.length bs)%nat.
Proof.
  induction bs as [|b bs IH]; simpl; [reflexivity|]. rewrite IH. lia.
Qed.

Lemma hexDigit_lower (n : Z) : isLowerHex (hexDigit n) = true.
Proof.
  unfold hexDigit.
  destruct (Z.to_nat n) as [|[|[|[|[|[|[|[|[|[|[|[|[|[|[|[|k]]]]]]]]]]]]]]]];
    try reflexivity.
  simpl. destruct k; reflexivity.
Qed.

Lemma toHex_lower (bs : bytes) : lowerHexText (toHex bs) = true.
Proof.
  unfold lowerHexText.
  induction bs as [|b bs IH]; simpl; [reflexivity|].
  fold (isLowerHex (hexDigit (b / 16))). fold (isLowerHex (hexDigit (b mod 16))).
  now rewrite !hexDigit_lower, IH.
Qed.

Lemma hexValue_hexDigit (n : Z) : 0 <= n < 16 -> hexValue (hexDigit n) = Some n.
Proof.
  intros H.
  remember (Z.to_nat n) as k eqn:Hk.
  assert (E : n = Z.of_nat k) by lia. subst n. clear Hk.
  do 16 (destruct k as [|k]; [reflexivity|]). lia.
Qed.

Lemma Buffer_from_hex_toHex (bs : bytes) :
  Forall isByte bs -> Buffer_from_hex (toHex bs) = bs.
Proof.
  induction 1 as [|b bs Hb _ IH]; simpl; [reflexivity|].
  unfold isByte in Hb.
  rewrite !hexValue_hexDigit.
  - rewrite IH. f_equal. rewrite (Z.div_mod b 16) at 3 by lia. reflexivity.
  - apply Z.mod_pos_bound. lia.
  - split; [apply Z.div_pos; lia | apply Z.div_lt_upper_bound; lia].
Qed.

Lemma Number_toString_inj (a b : Z) :
  Number_toString a = Number_toString b -> a = b.
Proof.
  unfold Number_toString. intros H.
  assert (P : forall z, NilZero.int_of_string (NilZero.string_of_int (Z.to_int z))
                        = Some (Z.to_int z)).
  { intros z. apply NilZero.isi; destruct z; simpl; try discriminate;
      intros E; injection E; apply DecimalPos.Unsigned.to_uint_nonnil. }
  apply DecimalZ.to_int_inj.
  pose proof (P a) as Pa. rewrite H, P in Pa. now injection Pa.
Qed.

Lemma Number_toString_truthy (n : Z) : truthy (Number_toString n) = true.
Proof.
  unfold Number_toString.
  destruct n as [|p|p]; simpl; [reflexivity| |reflexivity].
  unfold NilZero.string_of_uint.
  destruct (Pos.to_uint p); reflexivity.
Qed.

(** ** Facts about the hash *)

Lemma bigEndian_length (n : nat) (x : Z) : List.length (SHA256.bigEndian n x) = n.
Proof.
  revert x. induction n as [|n IH]; intros x; simpl; [reflexivity|].
  rewrite length_app, IH. simpl. lia.
Qed.

Lemma bigEndian_isByte (n : nat) (x : Z) : Forall isByte (SHA256.bigEndian n x).
Proof.
  revert x. induction n as [|n IH]; intros x; simpl; [constructor|].
  apply Forall_app. split; [apply IH|].
  constructor; [|constructor]. unfold isByte. apply Z.mod_pos_bound. lia.
Qed.

Lemma sha256_length (msg : bytes) : List.length (SHA256.sha256 msg) = 32%nat.
Proof.
  unfold SHA256.sha256, SHA256.output. cbn [flat_map].
  rewrite !length_app, !bigEndian_length. reflexivity.
Qed.

Lemma sha256_isByte (msg : bytes) : Forall isByte (SHA256.sha256 msg).
Proof.
  unfold SHA256.sha256, SHA256.output. cbn [flat_map].
  repeat (apply Forall_app; split; [apply bigEndian_isByte|]). constructor.
Qed.

Lemma digest_hex_length (h : Hmac) : String.length (digest_hex h) = 64%nat.
Proof.
  unfold digest_hex, HMAC.hmac_sha256. rewrite toHex_length, sha256_length. reflexivity.
Qed.

Lemma digest_hex_lower (h : Hmac) : lowerHexText (digest_hex h) = true.
Proof. apply toHex_lower. Qed.

Lemma digest_hex_truthy (h : Hmac) : truthy (digest_hex h) = true.
Proof.
  pose proof (digest_hex_length h) as H.
  destruct (digest_hex h); [discriminate|reflexivity].
Qed.

(** The UTF-8 bytes of a digest's hex text are not the digest's raw bytes:
    there are 64 of them, not 32. *)
Lemma hex_text_is_not_decoded (h : Hmac) :
  Buffer_from_utf8 (digest_hex h) <> Buffer_from_hex (digest_hex h).
Proof.
  intros E.
  assert (L : List.length (Buffer_from_utf8 (digest_hex h)) = 64%nat)
    by now rewrite Buffer_from_utf8_length, digest_hex_length.
  rewrite E in L. unfold digest_hex in L.
  rewrite Buffer_from_hex_toHex in L by apply sha256_isByte.
  unfold HMAC.hmac_sha256 in L. rewrite sha256_length in L. discriminate.
Qed.

(** ** What the two signers do on every input *)

Lemma truthy_spec (s : string) : truthy s = false <-> s = EmptyString.
Proof. destruct s; simpl; split; congruence. Qed.

Lemma truthy_true (s : string) : truthy s = true <-> s <> EmptyString.
Proof. destruct s; simpl; split; congruence. Qed.

Lemma firstRound_is_derivedKey (apiSecret : string) (t : Z) :
  digest_hex (firstRound apiSecret t) = Spec.derivedKey apiSecret t.
Proof. reflexivity. Qed.

Lemma secondRound_is_signature (apiSecret : string) (t : Z) (qs bd : string) :
  digest_hex (secondRound (digest_hex (firstRound apiSecret t)) (qs ++ bd))
  = Spec.signature apiSecret t qs bd.
Proof. reflexivity. Qed.

Lemma run_createSignedHeaders (cfg : Config) (w : Platform) (p : Lasttrade.SignArgs) :
  run w (Lasttrade.createSignedHeaders cfg p)
  = (signerTrace (API_SECRET cfg) (clock w)
       (with_default (Lasttrade.queryString p) EmptyString
        ++ with_default (Lasttrade.body p) EmptyString),
     inr (Spec.signedHeaders (API_KEY cfg) (API_SECRET cfg) (clock w)
            (with_default (Lasttrade.queryString p) EmptyString)
            (with_default (Lasttrade.body p) EmptyString))).
Proof. reflexivity. Qed.

Lemma run_computeSignHeaders (cfg : Config) (w : Platform) (p : Index.SignParams) :
  run w (Index.computeSignHeaders cfg p)
  = if credentialsPresent cfg then
      (signerTrace (API_SECRET cfg) (clock w)
         (with_default (Index.queryString p) EmptyString
          ++ with_default (Index.body p) EmptyString),
       inr (Spec.signedHeaders (API_KEY cfg) (API_SECRET cfg) (clock w)
              (with_default (Index.queryString p) EmptyString)
              (with_default (Index.body p) EmptyString)))
    else ([], inl Spec.ConfigurationError).
Proof.
  unfold Index.computeSignHeaders, credentialsPresent.
  destruct (truthy (API_KEY cfg)), (truthy (API_SECRET cfg)); reflexivity.
Qed.

Lemma run_bind {A B : Type} (w : Platform) (p : Prog A) (f : A -> Prog B) :
  run w (bind p f)
  = match snd (run w p) with
    | inr a => (fst (run w p) ++ fst (run w (f a)), snd (run w (f a)))
    | inl e => (fst (run w p), inl e)
    end.
Proof.
  induction p as [a|e|k IH|h k IH|q k IH|c k IH]; simpl.
  - destruct (run w (f a)); reflexivity.
  - reflexivity.
  - rewrite IH. destruct (snd (run w (k (clock w)))); reflexivity.
  - rewrite IH. destruct (snd (run w (k (digest_hex h)))); reflexivity.
  - destruct (network w q) as [e|v]; simpl; [reflexivity|].
    rewrite IH. destruct (snd (run w (k v))); reflexivity.
  - rewrite IH. destruct (snd (run w k)); reflexivity.
Qed.

(** ** The claims *)

(** C1.  End-to-end scenario: with API key "k", secret "s", the clock at
    1700000000000, query string "symbol=BTCUSDT" and an empty body,
    [computeSignHeaders] returns the API key header "k", the expires header
    "1700000000000", the content type "application/json" and, as sign header,
    the lowercase-hex HMAC-SHA256 of "symbol=BTCUSDT" keyed by the lowercase-hex
    HMAC-SHA256, keyed by "s", of the decimal string of floor(1700000000000 /
    30000) = 56666666, which is the message of the first digest it computes.
    The value is 31d9b6ff...02f3. *)
Theorem C1_end_to_end_scenario (base m : string) (net : Request -> exn + Json) :
  result {| clock := 1700000000000; network := net |}
    (Index.computeSignHeaders
       {| BASE_URL := base; API_KEY := "k"; API_SECRET := "s" |}
       {| Index.method := m;
          Index.queryString := Some "symbol=BTCUSDT";
          Index.body := Some EmptyString |})
  = inr {| X_CS_APIKEY := "k";
           X_CS_EXPIRES := "1700000000000";
           X_CS_SIGN := hmacSha256Hex
                          (hmacSha256Hex "s" (Number_toString (Math_floor_div 1700000000000 30000)))
                          "symbol=BTCUSDT";
           Content_Type := "application/json" |}
  /\ Number_toString (Math_floor_div 1700000000000 30000) = "56666666"
  /\ map (fun d => hdata (fst d))
       (digests (trace {| clock := 1700000000000; network := net |}
          (Index.computeSignHeaders
             {| BASE_URL := base; API_KEY := "k"; API_SECRET := "s" |}
             {| Index.method := m;
                Index.queryString := Some "symbol=BTCUSDT";
                Index.body := Some EmptyString |})))
     = [Buffer_from_utf8 "56666666"; Buffer_from_utf8 "symbol=BTCUSDT"]
  /\ hmacSha256Hex (hmacSha256Hex "s" "56666666") "symbol=BTCUSDT"
     = "31d9b6ff037830390264d7a2e5f4d73533ff329e062f6dea6285bfcb9eba02f3".
Proof.
  unfold result, trace. rewrite run_computeSignHeaders.
  repeat split; vm_compute; reflexivity.
Qed.

(** C2.  The two-round scheme.  For a non-empty API secret, whatever the
    clock, the query string and the body, the sign header [computeSignHeaders]
    returns (it returns one as soon as the API key is non-empty too) is the
    lowercase-hex HMAC-SHA256 of the payload keyed by the UTF-8 bytes of the
    derived key's hex text, where the derived key is the lowercase-hex
    HMAC-SHA256, keyed by the secret, of the decimal string of
    floor(now / 30000).  The key of the second digest is the 64-byte hex text,
    not its 32-byte decoding.  The script [main] of lasttrade.js follows the
    same scheme with its own secret and payload. *)
Theorem C2_two_round_scheme (cfg : Config) (w : Platform) (p : Index.SignParams) :
  truthy (API_SECRET cfg) = true ->
  signOf (result w (Index.computeSignHeaders cfg p))
  = (if truthy (API_KEY cfg) then
       Some (toHex (HMAC.hmac_sha256
                      (Buffer_from_utf8
                         (toHex (HMAC.hmac_sha256
                                   (Buffer_from_utf8 (API_SECRET cfg))
                                   (Buffer_from_utf8 (Number_toString (clock w / 30000))))))
                      (Buffer_from_utf8
                         (with_default (Index.queryString p) EmptyString
                          ++ with_default (Index.body p) EmptyString))))
     else None)
  /\ signingKey (trace w (Index.computeSignHeaders cfg p))
     = (if truthy (API_KEY cfg) then
          Some (Buffer_from_utf8 (Spec.derivedKey (API_SECRET cfg) (clock w)))
        else None)
  /\ Buffer_from_utf8 (Spec.derivedKey (API_SECRET cfg) (clock w))
     <> Buffer_from_hex (Spec.derivedKey (API_SECRET cfg) (clock w))
  /\ lowerHexText (Spec.derivedKey (API_SECRET cfg) (clock w)) = true
  /\ lowerHexText (Spec.signature (API_SECRET cfg) (clock w)
                     (with_default (Index.queryString p) EmptyString)
                     (with_default (Index.body p) EmptyString)) = true
  /\ digests (trace w Lasttrade.main)
     = [ ({| hkey := Buffer_from_utf8 "506cebf2251fc7fabbc80a68a72988c7";
             hdata := Buffer_from_utf8 (Number_toString (clock w / 30000)) |},
          Spec.derivedKey "506cebf2251fc7fabbc80a68a72988c7" (clock w));
         ({| hkey := Buffer_from_utf8
                       (Spec.derivedKey "506cebf2251fc7fabbc80a68a72988c7" (clock w));
             hdata := Buffer_from_utf8 "symbol=PPOUSDT" |},
          Spec.signature "506cebf2251fc7fabbc80a68a72988c7" (clock w)
            "symbol=PPOUSDT" EmptyString) ]
  /\ map X_CS_SIGN (requestHeaders (trace w Lasttrade.main))
     = [ Spec.signature "506cebf2251fc7fabbc80a68a72988c7" (clock w)
           "symbol=PPOUSDT" EmptyString ].
Proof.
  intros Hs. unfold result, trace.
  rewrite run_computeSignHeaders. unfold credentialsPresent. rewrite Hs.
  destruct (truthy (API_KEY cfg)); cbn [andb fst snd signOf].
  all: repeat split;
    try reflexivity;
    try apply (hex_text_is_not_decoded (firstRound (API_SECRET cfg) (clock w)));
    try apply toHex_lower.
  all: unfold Lasttrade.main; cbn [run bind now digest fst snd try_catch axios_get console];
    destruct (network w _); reflexivity.
Qed.

(** C2, at a concrete input. *)
Lemma C2_two_round_scheme_witness :
  truthy "s" = true /\
  signOf (result {| clock := 1700000000000; network := fun _ => inr JNull |}
            (Index.computeSignHeaders
               {| BASE_URL := "https://api.coinstore.com/api"; API_KEY := "k"; API_SECRET := "s" |}
               {| Index.method := "GET"; Index.queryString := Some "symbol=BTCUSDT";
                  Index.body := None |}))
  = Some (toHex (HMAC.hmac_sha256
                   (Buffer_from_utf8
                      (toHex (HMAC.hmac_sha256 (Buffer_from_utf8 "s")
                                (Buffer_from_utf8 (Number_toString (1700000000000 / 30000))))))
                   (Buffer_from_utf8 ("symbol=BTCUSDT" ++ EmptyString)))).
Proof.
  split; [reflexivity|].
  exact (proj1 (C2_two_round_scheme
                  {| BASE_URL := "https://api.coinstore.com/api"; API_KEY := "k"; API_SECRET := "s" |}
                  {| clock := 1700000000000; network := fun _ => inr JNull |}
                  {| Index.method := "GET"; Index.queryString := Some "symbol=BTCUSDT";
                     Index.body := None |}
                  eq_refl)).
Defined.

(** C3.  The message of the final HMAC is the query string immediately
    followed by the body: nothing is inserted between them (its length is the
    sum of the two lengths), nothing is reordered or decoded, and with both
    empty (or both omitted) the signed message is empty.  This holds for
    [createSignedHeaders] on every input and for [computeSignHeaders] whenever
    the credentials let it sign. *)
Theorem C3_payload_is_concatenation (cfg : Config) (w : Platform)
        (m queryString body : string) :
  signedMessage (trace w (Lasttrade.createSignedHeaders cfg
                   {| Lasttrade.queryString := Some queryString;
                      Lasttrade.body := Some body |}))
  = Some (Buffer_from_utf8 (queryString ++ body))
  /\ signedMessage (trace w (Index.computeSignHeaders cfg
                      {| Index.method := m;
                         Index.queryString := Some queryString;
                         Index.body := Some body |}))
     = (if credentialsPresent cfg then Some (Buffer_from_utf8 (queryString ++ body)) else None)
  /\ Buffer_from_utf8 (queryString ++ body)
     = Buffer_from_utf8 queryString ++ Buffer_from_utf8 body
  /\ List.length (Buffer_from_utf8 (queryString ++ body))
     = (String.length queryString + String.length body)%nat
  /\ signedMessage (trace w (Lasttrade.createSignedHeaders cfg
                      {| Lasttrade.queryString := Some EmptyString;
                         Lasttrade.body := Some EmptyString |}))
     = Some []
  /\ signedMessage (trace w (Lasttrade.createSignedHeaders cfg
                      {| Lasttrade.queryString := None; Lasttrade.body := None |}))
     = Some []
  /\ signedMessage (trace w (Index.computeSignHeaders cfg
                      {| Index.method := m; Index.queryString := None; Index.body := None |}))
     = (if credentialsPresent cfg then Some [] else None).
Proof.
  unfold trace. rewrite !run_createSignedHeaders, !run_computeSignHeaders.
  repeat split; try reflexivity.
  - destruct (credentialsPresent cfg); reflexivity.
  - apply Buffer_from_utf8_app.
  - rewrite Buffer_from_utf8_app, length_app, !Buffer_from_utf8_length. reflexivity.
  - destruct (credentialsPresent cfg); reflexivity.
Qed.

(** C4.  [computeSignHeaders] raises the configuration error exactly when the
    API key or the API secret is the empty string, and then it has read no
    clock and computed no digest.  With both non-empty it returns the four
    headers, each of them a non-empty string.  It has no third outcome: its
    result is the one the specification's [computeSignedHeaders] prescribes. *)
Theorem C4_configuration_error (cfg : Config) (w : Platform) (p : Index.SignParams) :
  ((API_KEY cfg = EmptyString \/ API_SECRET cfg = EmptyString)
   <-> exists e, result w (Index.computeSignHeaders cfg p) = inl e)
  /\ (forall e, result w (Index.computeSignHeaders cfg p) = inl e ->
        e = Error "Missing CS_API_KEY/CS_API_SECRET"
        /\ trace w (Index.computeSignHeaders cfg p) = []
        /\ Index.computeSignHeaders cfg p = Throw e)
  /\ (API_KEY cfg <> EmptyString -> API_SECRET cfg <> EmptyString ->
      exists h, result w (Index.computeSignHeaders cfg p) = inr h
        /\ X_CS_APIKEY h = API_KEY cfg
        /\ X_CS_EXPIRES h = Number_toString (clock w)
        /\ X_CS_SIGN h = Spec.signature (API_SECRET cfg) (clock w)
                           (with_default (Index.queryString p) EmptyString)
                           (with_default (Index.body p) EmptyString)
        /\ Content_Type h = "application/json"
        /\ truthy (X_CS_APIKEY h) && truthy (X_CS_EXPIRES h)
           && truthy (X_CS_SIGN h) && truthy (Content_Type h) = true)
  /\ result w (Index.computeSignHeaders cfg p)
     = Spec.computeSignedHeaders (API_KEY cfg) (API_SECRET cfg)
         (with_default (Index.queryString p) EmptyString)
         (with_default (Index.body p) EmptyString) (clock w).
Proof.
  unfold result, trace. rewrite run_computeSignHeaders.
  unfold Index.computeSignHeaders, credentialsPresent, Spec.computeSignedHeaders.
  destruct (API_KEY cfg) as [|a ks]; destruct (API_SECRET cfg) as [|b ss];
    cbn [truthy andb negb orb fst snd].
  4: {
    split; [split; [intros [E|E]; discriminate E | intros [e E]; discriminate E]|].
    split; [intros e E; discriminate E|].
    split; [|reflexivity].
    intros _ _. eexists. split; [reflexivity|].
    cbn [X_CS_APIKEY X_CS_EXPIRES X_CS_SIGN Content_Type Spec.signedHeaders truthy andb].
    repeat (split; [reflexivity|]).
    rewrite Number_toString_truthy.
    unfold Spec.signature.
    match goal with
    | |- context [toHex (HMAC.hmac_sha256 ?k ?d)] =>
        change (toHex (HMAC.hmac_sha256 k d)) with (digest_hex {| hkey := k; hdata := d |})
    end.
    rewrite digest_hex_truthy. reflexivity. }
  all: split; [split; [intros _; eexists; reflexivity | intros _; auto]|].
  all: split; [intros e E; injection E as <-; repeat split; reflexivity|].
  all: split; [intros Hk Hs; congruence | reflexivity].
Qed.

(** C4, with both credentials present. *)
Lemma C4_configuration_error_witness :
  exists h,
    result {| clock := 1700000000000; network := fun _ => inr JNull |}
      (Index.computeSignHeaders
         {| BASE_URL := "https://api.coinstore.com/api"; API_KEY := "k"; API_SECRET := "s" |}
         {| Index.method := "GET"; Index.queryString := None; Index.body := None |})
    = inr h
    /\ X_CS_APIKEY h = "k".
Proof.
  destruct (proj1 (proj2 (proj2
    (C4_configuration_error
       {| BASE_URL := "https://api.coinstore.com/api"; API_KEY := "k"; API_SECRET := "s" |}
       {| clock := 1700000000000; network := fun _ => inr JNull |}
       {| Index.method := "GET"; Index.queryString := None; Index.body := None |})))
    ltac:(discriminate) ltac:(discriminate)) as [h [Hr [Hk _]]].
  exists h. split; assumption.
Defined.

(** C5.  Determinism.  The outcome of [computeSignHeaders] (the calls it
    makes and the headers or error it ends with) is fixed by the API key, the
    API secret, the query string, the body and the clock reading: two
    invocations that agree on these five agree on the outcome, whatever the base
    URL, the method, the remote service, and whether a field was omitted or
    given as the empty string.  Two invocations in a row at the same clock
    reading return the same headers. *)
Theorem C5_deterministic (cfg1 cfg2 : Config) (p1 p2 : Index.SignParams) (w1 w2 : Platform) :
  API_KEY cfg1 = API_KEY cfg2 ->
  API_SECRET cfg1 = API_SECRET cfg2 ->
  with_default (Index.queryString p1) EmptyString
    = with_default (Index.queryString p2) EmptyString ->
  with_default (Index.body p1) EmptyString = with_default (Index.body p2) EmptyString ->
  clock w1 = clock w2 ->
  run w1 (Index.computeSignHeaders cfg1 p1) = run w2 (Index.computeSignHeaders cfg2 p2)
  /\ result w1 (twice (Index.computeSignHeaders cfg1 p1))
     = match result w1 (Index.computeSignHeaders cfg1 p1) with
       | inr h => inr (h, h)
       | inl e => inl e
       end.
Proof.
  intros Hk Hs Hq Hb Hc. split.
  - rewrite !run_computeSignHeaders. unfold credentialsPresent.
    now rewrite Hk, Hs, Hq, Hb, Hc.
  - unfold result, twice. rewrite run_bind, run_computeSignHeaders.
    destruct (credentialsPresent cfg1) eqn:E; cbn [fst snd]; [|reflexivity].
    rewrite run_bind, run_computeSignHeaders, E. reflexivity.
Qed.

Lemma C5_deterministic_witness :
  run {| clock := 1700000000000; network := fun _ => inr JNull |}
    (Index.computeSignHeaders
       {| BASE_URL := "https://api.coinstore.com/api"; API_KEY := "k"; API_SECRET := "s" |}
       {| Index.method := "GET"; Index.queryString := Some "symbol=BTCUSDT";
          Index.body := None |})
  = run {| clock := 1700000000000; network := fun _ => inl (Error "offline") |}
      (Index.computeSignHeaders
         {| BASE_URL := "http://localhost"; API_KEY := "k"; API_SECRET := "s" |}
         {| Index.method := "POST"; Index.queryString := Some "symbol=BTCUSDT";
            Index.body := Some EmptyString |}).
Proof.
  exact (proj1 (C5_deterministic
    {| BASE_URL := "https://api.coinstore.com/api"; API_KEY := "k"; API_SECRET := "s" |}
    {| BASE_URL := "http://localhost"; API_KEY := "k"; API_SECRET := "s" |}
    {| Index.method := "GET"; Index.queryString := Some "symbol=BTCUSDT"; Index.body := None |}
    {| Index.method := "POST"; Index.queryString := Some "symbol=BTCUSDT";
       Index.body := Some EmptyString |}
    {| clock := 1700000000000; network := fun _ => inr JNull |}
    {| clock := 1700000000000; network := fun _ => inl (Error "offline") |}
    eq_refl eq_refl eq_refl eq_refl eq_refl)).
Defined.

(** C6.  Two clock readings in the same 30000 ms bucket give the same derived
    key and the same sign header; the expires headers of the two results differ
    as soon as the readings differ.  With both credentials present the two calls
    do return headers, and the derived key is the one of the bucket. *)
Theorem C6_same_bucket (cfg : Config) (p : Index.SignParams) (w1 w2 : Platform) :
  Math_floor_div (clock w1) 30000 = Math_floor_div (clock w2) 30000 ->
  derivedKeyOf (trace w1 (Index.computeSignHeaders cfg p))
    = derivedKeyOf (trace w2 (Index.computeSignHeaders cfg p))
  /\ signOf (result w1 (Index.computeSignHeaders cfg p))
     = signOf (result w2 (Index.computeSignHeaders cfg p))
  /\ (clock w1 <> clock w2 ->
      forall h1 h2,
        result w1 (Index.computeSignHeaders cfg p) = inr h1 ->
        result w2 (Index.computeSignHeaders cfg p) = inr h2 ->
        X_CS_EXPIRES h1 <> X_CS_EXPIRES h2)
  /\ (credentialsPresent cfg = true ->
      derivedKeyOf (trace w1 (Index.computeSignHeaders cfg p))
        = Some (Spec.derivedKey (API_SECRET cfg) (clock w1))
      /\ exists h1 h2,
           result w1 (Index.computeSignHeaders cfg p) = inr h1
           /\ result w2 (Index.computeSignHeaders cfg p) = inr h2).
Proof.
  intros Hb. unfold trace, result. rewrite !run_computeSignHeaders.
  assert (H1 : firstRound (API_SECRET cfg) (clock w1) = firstRound (API_SECRET cfg) (clock w2))
    by (unfold firstRound; now rewrite Hb).
  assert (H2 : forall qs bd, Spec.signature (API_SECRET cfg) (clock w1) qs bd
                             = Spec.signature (API_SECRET cfg) (clock w2) qs bd).
  { intros qs bd. unfold Spec.signature, Spec.derivedKey, Spec.timeBucket.
    unfold Math_floor_div in Hb. now rewrite Hb. }
  destruct (credentialsPresent cfg); cbn [fst snd signOf].
  - split; [|split; [|split]].
    + unfold signerTrace, derivedKeyOf. cbn [digests]. now rewrite H1.
    + cbn [Spec.signedHeaders X_CS_SIGN]. now rewrite H2.
    + intros Hne h1 h2 E1 E2. injection E1 as <-. injection E2 as <-.
      cbn [X_CS_EXPIRES Spec.signedHeaders].
      intros E. apply Hne. now apply Number_toString_inj.
    + intros _. split; [reflexivity|]. eauto.
  - split; [reflexivity|]. split; [reflexivity|]. split.
    + intros _ h1 h2 E1. discriminate E1.
    + discriminate.
Qed.

Lemma C6_same_bucket_witness :
  Math_floor_div 1700000000000 30000 = Math_floor_div 1700000000001 30000 /\
  signOf (result {| clock := 1700000000000; network := fun _ => inr JNull |}
            (Index.computeSignHeaders
               {| BASE_URL := "https://api.coinstore.com/api"; API_KEY := "k"; API_SECRET := "s" |}
               {| Index.method := "GET"; Index.queryString := Some "symbol=BTCUSDT";
                  Index.body := None |}))
  = signOf (result {| clock := 1700000000001; network := fun _ => inr JNull |}
              (Index.computeSignHeaders
                 {| BASE_URL := "https://api.coinstore.com/api"; API_KEY := "k"; API_SECRET := "s" |}
                 {| Index.method := "GET"; Index.queryString := Some "symbol=BTCUSDT";
                    Index.body := None |})).
Proof.
  split; [reflexivity|].
  exact (proj1 (proj2 (C6_same_bucket
    {| BASE_URL := "https://api.coinstore.com/api"; API_KEY := "k"; API_SECRET := "s" |}
    {| Index.method := "GET"; Index.queryString := Some "symbol=BTCUSDT"; Index.body := None |}
    {| clock := 1700000000000; network := fun _ => inr JNull |}
    {| clock := 1700000000001; network := fun _ => inr JNull |}
    eq_refl))).
Defined.

(** Towards time-bucket sensitivity: readings in different buckets make the
    first round hash different messages.  Whether the resulting signatures
    differ is a matter of collisions of HMAC-SHA256. *)
Lemma different_buckets_different_messages (apiSecret : string) (t1 t2 : Z) :
  Math_floor_div t1 30000 <> Math_floor_div t2 30000 ->
  hdata (firstRound apiSecret t1) <> hdata (firstRound apiSecret t2).
Proof.
  intros Hne E. apply Hne. cbn [firstRound update createHmac_sha256 hdata app] in E.
  now apply Number_toString_inj, Buffer_from_utf8_inj.
Qed.

(** C8.  The two [getBalances] use different conventions for an empty body.
    The one of index.ts hands the signer the empty body (so, when the credentials
    let it sign, the final HMAC message is empty and the request carries the
    headers signed over the empty payload); the one of lasttrade.js hands it
    [JSON.stringify({})], the two characters "{}", which is then the final
    HMAC message.  For the same credentials and clock the two payloads differ. *)
Theorem C8_two_empty_body_conventions (cfg : Config) (w : Platform) :
  Index.getBalances cfg
  = bind (Index.computeSignHeaders cfg
            {| Index.method := "GET";
               Index.queryString := Some EmptyString;
               Index.body := Some EmptyString |})
         (fun headers =>
            bind (axios_get (BASE_URL cfg ++ "/spot/accountList") headers (Some 10000)) Ret)
  /\ Lasttrade.getBalances cfg
     = bind (Lasttrade.createSignedHeaders cfg
               {| Lasttrade.queryString := Some EmptyString;
                  Lasttrade.body := Some "{}" |})
            (fun headers =>
               bind (axios_post (BASE_URL cfg ++ "/spot/accountList") (JObject []) headers
                       (Some 10000)) Ret)
  /\ JSON_stringify (JObject []) = "{}"
  /\ signedMessage (trace w (Index.getBalances cfg))
     = (if credentialsPresent cfg then Some (Buffer_from_utf8 EmptyString) else None)
  /\ signedMessage (trace w (Lasttrade.getBalances cfg)) = Some (Buffer_from_utf8 "{}")
  /\ requestHeaders (trace w (Index.getBalances cfg))
     = (if credentialsPresent cfg then
          [Spec.signedHeaders (API_KEY cfg) (API_SECRET cfg) (clock w) EmptyString EmptyString]
        else [])
  /\ requestHeaders (trace w (Lasttrade.getBalances cfg))
     = [Spec.signedHeaders (API_KEY cfg) (API_SECRET cfg) (clock w) EmptyString "{}"]
  /\ Buffer_from_utf8 (EmptyString ++ EmptyString) <> Buffer_from_utf8 (EmptyString ++ "{}").
Proof.
  split; [reflexivity|]. split; [reflexivity|]. split; [reflexivity|].
  unfold trace, Index.getBalances, Lasttrade.getBalances.
  rewrite !run_bind, run_computeSignHeaders, run_createSignedHeaders.
  cbn [fst snd JSON_stringify map String.concat append with_default
       Lasttrade.queryString Lasttrade.body].
  unfold axios_get, axios_post. cbn [bind run].
  destruct (credentialsPresent cfg); cbn [fst snd];
    repeat match goal with |- context [network w ?q] => destruct (network w q) end;
    cbn [fst snd];
    (split; [reflexivity|]); (split; [reflexivity|]); (split; [reflexivity|]);
    (split; [reflexivity|]); discriminate.
Qed.

(** C9.  The [method] argument is ignored: two calls that differ only in it
    are the same program, so they make the same calls (the same two digests over
    the same keys and messages) and end with the same headers or error. *)
Theorem C9_method_is_ignored (cfg : Config) (w : Platform) (method1 method2 : string)
        (queryString body : option string) :
  Index.computeSignHeaders cfg
    {| Index.method := method1; Index.queryString := queryString; Index.body := body |}
  = Index.computeSignHeaders cfg
      {| Index.method := method2; Index.queryString := queryString; Index.body := body |}
  /\ run w (Index.computeSignHeaders cfg
              {| Index.method := method1; Index.queryString := queryString; Index.body := body |})
     = run w (Index.computeSignHeaders cfg
                {| Index.method := method2; Index.queryString := queryString;
                   Index.body := body |})
  /\ result {| clock := 1700000000000; network := network w |}
       (Index.computeSignHeaders
          {| BASE_URL := BASE_URL cfg; API_KEY := "k"; API_SECRET := "s" |}
          {| Index.method := "GET"; Index.queryString := Some "symbol=BTCUSDT";
             Index.body := Some EmptyString |})
     = result {| clock := 1700000000000; network := network w |}
         (Index.computeSignHeaders
            {| BASE_URL := BASE_URL cfg; API_KEY := "k"; API_SECRET := "s" |}
            {| Index.method := "POST"; Index.queryString := Some "symbol=BTCUSDT";
               Index.body := Some EmptyString |}).
Proof.
  split; [reflexivity|]. split; [|reflexivity].
  rewrite !run_computeSignHeaders. reflexivity.
Qed.

(** C10.  The two signers agree.  With both credentials non-empty,
    [computeSignHeaders] of index.ts and [createSignedHeaders] of lasttrade.js
    are the same program on the same query string and body: same calls, same
    four headers.  They differ only through the guard: [createSignedHeaders]
    returns headers for every configuration, also where [computeSignHeaders]
    raises the configuration error. *)
Theorem C10_signers_agree (cfg : Config) (w : Platform) (method : string)
        (queryString body : option string) :
  run w (Index.computeSignHeaders cfg
           {| Index.method := method; Index.queryString := queryString; Index.body := body |})
  = (if credentialsPresent cfg then
       run w (Lasttrade.createSignedHeaders cfg
                {| Lasttrade.queryString := queryString; Lasttrade.body := body |})
     else ([], inl (Error "Missing CS_API_KEY/CS_API_SECRET")))
  /\ Index.computeSignHeaders cfg
       {| Index.method := method; Index.queryString := queryString; Index.body := body |}
     = (if credentialsPresent cfg then
          Lasttrade.createSignedHeaders cfg
            {| Lasttrade.queryString := queryString; Lasttrade.body := body |}
        else Throw (Error "Missing CS_API_KEY/CS_API_SECRET"))
  /\ result w (Lasttrade.createSignedHeaders cfg
                 {| Lasttrade.queryString := queryString; Lasttrade.body := body |})
     = inr {| X_CS_APIKEY := API_KEY cfg;
              X_CS_EXPIRES := Number_toString (clock w);
              X_CS_SIGN := Spec.signature (API_SECRET cfg) (clock w)
                             (with_default queryString EmptyString)
                             (with_default body EmptyString);
              Content_Type := "application/json" |}
  /\ (credentialsPresent cfg = true
      <-> API_KEY cfg <> EmptyString /\ API_SECRET cfg <> EmptyString).
Proof.
  split; [|split; [|split]].
  - rewrite run_computeSignHeaders, run_createSignedHeaders. reflexivity.
  - unfold Index.computeSignHeaders, Lasttrade.createSignedHeaders, credentialsPresent.
    destruct (truthy (API_KEY cfg)), (truthy (API_SECRET cfg)); reflexivity.
  - unfold result. rewrite run_createSignedHeaders. reflexivity.
  - unfold credentialsPresent. rewrite andb_true_iff, !truthy_true. reflexivity.
Qed.

(** ** Query strings *)

Example query_two_params :
  URLSearchParams_toString [("symbol", "PPOUSDT"); ("limit", "10")] = "symbol=PPOUSDT&limit=10".
Proof. reflexivity. Qed.

Example query_escapes :
  URLSearchParams_toString [("a b", "c&d=e/f~g*h")] = "a+b=c%26d%3De%2Ff%7Eg*h".
Proof. reflexivity. Qed.

Example query_of_no_params : URLSearchParams_toString [] = EmptyString.
Proof. reflexivity. Qed.

Lemma truthy_app (a b : string) : truthy (a ++ b) = truthy a || truthy b.
Proof. destruct a; reflexivity. Qed.

Lemma app_empty_r (a : string) : (a ++ EmptyString)%string = a.
Proof. induction a as [|c a IH]; simpl; congruence. Qed.

Lemma concat_cons (sep x : string) (xs : list string) :
  String.concat sep (x :: xs)
  = match xs with
    | [] => x
    | _ :: _ => (x ++ sep ++ String.concat sep xs)%string
    end.
Proof. destruct xs; reflexivity. Qed.

Lemma concat_empty_cons (x : string) (xs : list string) :
  String.concat EmptyString (x :: xs) = (x ++ String.concat EmptyString xs)%string.
Proof.
  rewrite concat_cons. destruct xs; [now rewrite app_empty_r | reflexivity].
Qed.

Lemma formEncode_cons (c : ascii) (s : string) :
  formEncode (String c s) = (formEncodeChar c ++ formEncode s)%string.
Proof. unfold formEncode. cbn [list_ascii_of_string map]. apply concat_empty_cons. Qed.

Lemma allChars_app (P : ascii -> bool) (a b : string) :
  allChars P (a ++ b) = allChars P a && allChars P b.
Proof. unfold allChars. now rewrite list_ascii_of_string_app, forallb_app. Qed.

Lemma allChars_concat (P : ascii -> bool) (sep : string) (xs : list string) :
  allChars P sep = true ->
  Forall (fun x => allChars P x = true) xs ->
  allChars P (String.concat sep xs) = true.
Proof.
  intros Hsep. induction 1 as [|x xs Hx Hxs IH]; [reflexivity|].
  rewrite concat_cons. destruct xs as [|y ys]; [exact Hx|].
  now rewrite !allChars_app, Hx, Hsep, IH.
Qed.

Lemma hexDigitUpper_query (n : Z) : isQueryChar (hexDigitUpper n) = true.
Proof.
  unfold hexDigitUpper.
  remember (Z.to_nat n) as k eqn:Hk. clear Hk.
  do 16 (destruct k as [|k]; [reflexivity|]).
  simpl. destruct k; reflexivity.
Qed.

Lemma hexValue_hexDigitUpper (n : Z) : 0 <= n < 16 -> hexValue (hexDigitUpper n) = Some n.
Proof.
  intros H.
  remember (Z.to_nat n) as k eqn:Hk.
  assert (E : n = Z.of_nat k) by lia. subst n. clear Hk.
  do 16 (destruct k as [|k]; [reflexivity|]). lia.
Qed.

Lemma formEncodeChar_query (c : ascii) : allChars isQueryChar (formEncodeChar c) = true.
Proof.
  unfold formEncodeChar, allChars.
  destruct (Z.of_N (N_of_ascii c) =? 32); [reflexivity|].
  destruct (formSafe (Z.of_N (N_of_ascii c))) eqn:Hs.
  - cbn [list_ascii_of_string forallb]. unfold isQueryChar. now rewrite Hs.
  - cbn [list_ascii_of_string forallb]. now rewrite !hexDigitUpper_query.
Qed.

Lemma formEncode_query (s : string) : allChars isQueryChar (formEncode s) = true.
Proof.
  induction s as [|c s IH]; [reflexivity|].
  now rewrite formEncode_cons, allChars_app, formEncodeChar_query, IH.
Qed.

Lemma URLSearchParams_toString_query (params : list (string * string)) :
  allChars isQueryChar (URLSearchParams_toString params) = true.
Proof.
  unfold URLSearchParams_toString. apply allChars_concat; [reflexivity|].
  apply Forall_map, Forall_forall. intros [k v] _.
  rewrite !allChars_app, !formEncode_query. reflexivity.
Qed.

Lemma URLSearchParams_toString_truthy (params : list (string * string)) :
  truthy (URLSearchParams_toString params) = match params with [] => false | _ :: _ => true end.
Proof.
  unfold URLSearchParams_toString. destruct params as [|[k v] rest]; [reflexivity|].
  cbn [map]. rewrite concat_cons.
  destruct (map _ rest); rewrite ?truthy_app, ?truthy_app; cbn [truthy];
    rewrite ?orb_true_r; reflexivity.
Qed.

Lemma formEncode_plain (s : string) : plainText s = true -> formEncode s = s.
Proof.
  unfold plainText, allChars.
  induction s as [|c s IH]; [reflexivity|].
  cbn [list_ascii_of_string forallb]. intros H. apply andb_true_iff in H as [Hc Hs].
  rewrite formEncode_cons, (IH Hs). unfold formEncodeChar. rewrite Hc.
  destruct (Z.of_N (N_of_ascii c) =? 32) eqn:E; [|reflexivity].
  apply Z.eqb_eq in E. rewrite E in Hc. discriminate Hc.
Qed.

Lemma ascii_code_bound (c : ascii) : 0 <= Z.of_N (N_of_ascii c) < 256.
Proof.
  pose proof (N_ascii_bounded c) as H. lia.
Qed.

Lemma ascii_of_code (c : ascii) : ascii_of_N (Z.to_N (Z.of_N (N_of_ascii c))) = c.
Proof. rewrite N2Z.id. apply ascii_N_embedding. Qed.

Lemma formDecode_formEncodeChar (c : ascii) (rest : string) :
  formDecode (formEncodeChar c ++ rest) = String c (formDecode rest).
Proof.
  unfold formEncodeChar.
  pose proof (ascii_code_bound c) as Hb. pose proof (ascii_of_code c) as Hc.
  destruct (Z.of_N (N_of_ascii c) =? 32) eqn:E32.
  - apply Z.eqb_eq in E32. rewrite E32 in Hc. rewrite <- Hc. reflexivity.
  - destruct (formSafe (Z.of_N (N_of_ascii c))) eqn:Hs.
    + cbn [append formDecode].
      destruct (Ascii.eqb c "+") eqn:Ep.
      { apply Ascii.eqb_eq in Ep. subst c. discriminate Hs. }
      destruct (Ascii.eqb c "%") eqn:Eq.
      { apply Ascii.eqb_eq in Eq. subst c. discriminate Hs. }
      reflexivity.
    + cbn [append formDecode].
      change (Ascii.eqb "%" "+") with false. change (Ascii.eqb "%" "%") with true.
      cbn iota.
      rewrite !hexValue_hexDigitUpper.
      * rewrite <- (Z.div_mod (Z.of_N (N_of_ascii c)) 16) by lia. now rewrite Hc.
      * apply Z.mod_pos_bound. lia.
      * split; [apply Z.div_pos; lia | apply Z.div_lt_upper_bound; lia].
Qed.

Lemma formDecode_formEncode_inverse (s : string) : formDecode (formEncode s) = s.
Proof.
  induction s as [|c s IH]; [reflexivity|].
  now rewrite formEncode_cons, formDecode_formEncodeChar, IH.
Qed.

Lemma parseDecimal_toString (z : Z) : parseDecimal (Number_toString z) = Some z.
Proof.
  unfold parseDecimal, Number_toString.
  rewrite NilZero.isi.
  - cbn [option_map]. now rewrite DecimalZ.of_to.
  - destruct z; simpl; try discriminate;
      intros E; injection E; apply DecimalPos.Unsigned.to_uint_nonnil.
  - destruct z; simpl; try discriminate;
      intros E; injection E; apply DecimalPos.Unsigned.to_uint_nonnil.
Qed.

(** ** Signed requests *)

Lemma run_request (w : Platform) (q : Request) :
  run w (bind (Axios q Ret) Ret) = ([EvRequest q], network w q).
Proof. cbn [bind run]. destruct (network w q); reflexivity. Qed.

Lemma run_index_request (cfg : Config) (w : Platform) (m qs bd u : string) (t : option Z)
      (v : Verb) (d : option Json) :
  run w (bind (Index.computeSignHeaders cfg
                 {| Index.method := m; Index.queryString := Some qs; Index.body := Some bd |})
              (fun hs => bind (Axios {| verb := v; url := u; data := d; headers := hs;
                                        timeout := t |} Ret) Ret))
  = if credentialsPresent cfg then
      (signerTrace (API_SECRET cfg) (clock w) (qs ++ bd)
       ++ [EvRequest {| verb := v; url := u; data := d;
                        headers := Spec.signedHeaders (API_KEY cfg) (API_SECRET cfg)
                                     (clock w) qs bd;
                        timeout := t |}],
       network w {| verb := v; url := u; data := d;
                    headers := Spec.signedHeaders (API_KEY cfg) (API_SECRET cfg)
                                 (clock w) qs bd;
                    timeout := t |})
    else ([], inl Spec.ConfigurationError).
Proof.
  rewrite run_bind, run_computeSignHeaders.
  destruct (credentialsPresent cfg); cbn [fst snd]; [|reflexivity].
  rewrite run_request. reflexivity.
Qed.

Lemma run_lasttrade_request (cfg : Config) (w : Platform) (qs bd u : string) (t : option Z)
      (v : Verb) (d : option Json) :
  run w (bind (Lasttrade.createSignedHeaders cfg
                 {| Lasttrade.queryString := Some qs; Lasttrade.body := Some bd |})
              (fun hs => bind (Axios {| verb := v; url := u; data := d; headers := hs;
                                        timeout := t |} Ret) Ret))
  = (signerTrace (API_SECRET cfg) (clock w) (qs ++ bd)
     ++ [EvRequest {| verb := v; url := u; data := d;
                      headers := Spec.signedHeaders (API_KEY cfg) (API_SECRET cfg)
                                   (clock w) qs bd;
                      timeout := t |}],
     network w {| verb := v; url := u; data := d;
                  headers := Spec.signedHeaders (API_KEY cfg) (API_SECRET cfg)
                               (clock w) qs bd;
                  timeout := t |}).
Proof.
  rewrite run_bind, run_createSignedHeaders. cbn [fst snd].
  rewrite run_request. reflexivity.
Qed.

Lemma signerTrace_then_request (s p : string) (t : Z) (q : Request) :
  signedMessage (signerTrace s t p ++ [EvRequest q]) = Some (Buffer_from_utf8 p)
  /\ requests (signerTrace s t p ++ [EvRequest q]) = [q].
Proof. split; reflexivity. Qed.

Lemma run_getCurrentOrdersV2 (cfg : Config) (w : Platform) (params : list (string * string)) :
  run w (IndexServer.getCurrentOrdersV2 cfg params)
  = if credentialsPresent cfg then
      (signerTrace (API_SECRET cfg) (clock w) (URLSearchParams_toString params ++ EmptyString)
       ++ [EvRequest (signedRequest cfg (clock w) GET
                        (BASE_URL cfg ++ "/trade/order/current/v2"
                         ++ (if truthy (URLSearchParams_toString params)
                             then "?" ++ URLSearchParams_toString params else EmptyString))
                        (URLSearchParams_toString params) None EmptyString)],
       network w (signedRequest cfg (clock w) GET
                    (BASE_URL cfg ++ "/trade/order/current/v2"
                     ++ (if truthy (URLSearchParams_toString params)
                         then "?" ++ URLSearchParams_toString params else EmptyString))
                    (URLSearchParams_toString params) None EmptyString))
    else ([], inl Spec.ConfigurationError).
Proof. apply run_index_request. Qed.

Lemma run_getLatestTrades (cfg : Config) (w : Platform) (params : list (string * string)) :
  run w (IndexServer.getLatestTrades cfg params)
  = if credentialsPresent cfg then
      (signerTrace (API_SECRET cfg) (clock w) (URLSearchParams_toString params ++ EmptyString)
       ++ [EvRequest (signedRequest cfg (clock w) GET
                        (BASE_URL cfg ++ "/trade/order/trades/latest"
                         ++ (if truthy (URLSearchParams_toString params)
                             then "?" ++ URLSearchParams_toString params else EmptyString))
                        (URLSearchParams_toString params) None EmptyString)],
       network w (signedRequest cfg (clock w) GET
                    (BASE_URL cfg ++ "/trade/order/trades/latest"
                     ++ (if truthy (URLSearchParams_toString params)
                         then "?" ++ URLSearchParams_toString params else EmptyString))
                    (URLSearchParams_toString params) None EmptyString))
    else ([], inl Spec.ConfigurationError).
Proof. apply run_index_request. Qed.

Lemma run_index_getBalances (cfg : Config) (w : Platform) :
  run w (Index.getBalances cfg)
  = if credentialsPresent cfg then
      (signerTrace (API_SECRET cfg) (clock w) EmptyString
       ++ [EvRequest (signedRequest cfg (clock w) GET (BASE_URL cfg ++ "/spot/accountList")
                        EmptyString None EmptyString)],
       network w (signedRequest cfg (clock w) GET (BASE_URL cfg ++ "/spot/accountList")
                    EmptyString None EmptyString))
    else ([], inl Spec.ConfigurationError).
Proof. apply run_index_request. Qed.

Lemma run_apiGet (cfg : Config) (w : Platform) (path : string) (params : list (string * string)) :
  run w (LasttradeServer.apiGet cfg path params)
  = (signerTrace (API_SECRET cfg) (clock w) (URLSearchParams_toString params ++ EmptyString)
     ++ [EvRequest (signedRequest cfg (clock w) GET
                      (BASE_URL cfg ++ (if truthy (URLSearchParams_toString params)
                                        then path ++ "?" ++ URLSearchParams_toString params
                                        else path))
                      (URLSearchParams_toString params) None EmptyString)],
     network w (signedRequest cfg (clock w) GET
                  (BASE_URL cfg ++ (if truthy (URLSearchParams_toString params)
                                    then path ++ "?" ++ URLSearchParams_toString params
                                    else path))
                  (URLSearchParams_toString params) None EmptyString)).
Proof. apply run_lasttrade_request. Qed.

Lemma run_apiPost (cfg : Config) (w : Platform) (path : string) (bodyObj : Json)
      (params : list (string * string)) :
  run w (LasttradeServer.apiPost cfg path (Some bodyObj) params)
  = (signerTrace (API_SECRET cfg) (clock w)
       (URLSearchParams_toString params ++ JSON_stringify bodyObj)
     ++ [EvRequest (signedRequest cfg (clock w) POST
                      (BASE_URL cfg ++ (if truthy (URLSearchParams_toString params)
                                        then path ++ "?" ++ URLSearchParams_toString params
                                        else path))
                      (URLSearchParams_toString params) (Some bodyObj)
                      (JSON_stringify bodyObj))],
     network w (signedRequest cfg (clock w) POST
                  (BASE_URL cfg ++ (if truthy (URLSearchParams_toString params)
                                    then path ++ "?" ++ URLSearchParams_toString params
                                    else path))
                  (URLSearchParams_toString params) (Some bodyObj)
                  (JSON_stringify bodyObj))).
Proof. apply run_lasttrade_request. Qed.

Lemma run_lasttrade_getBalances (cfg : Config) (w : Platform) :
  run w (Lasttrade.getBalances cfg)
  = (signerTrace (API_SECRET cfg) (clock w) "{}"
     ++ [EvRequest (signedRequest cfg (clock w) POST (BASE_URL cfg ++ "/spot/accountList")
                      EmptyString (Some (JObject [])) "{}")],
     network w (signedRequest cfg (clock w) POST (BASE_URL cfg ++ "/spot/accountList")
                  EmptyString (Some (JObject [])) "{}")).
Proof. apply run_lasttrade_request. Qed.

(** ** Further properties of the code *)

(** X1.  The sign header is always 64 lowercase hexadecimal characters:
    [createSignedHeaders] returns such a header on every input, and so does
    [computeSignHeaders] whenever it returns headers. *)
Theorem X1_sign_header_shape (cfg : Config) (w : Platform) (a : Lasttrade.SignArgs)
        (p : Index.SignParams) :
  (exists h, result w (Lasttrade.createSignedHeaders cfg a) = inr h
             /\ String.length (X_CS_SIGN h) = 64%nat
             /\ lowerHexText (X_CS_SIGN h) = true)
  /\ (forall h, result w (Index.computeSignHeaders cfg p) = inr h ->
                String.length (X_CS_SIGN h) = 64%nat /\ lowerHexText (X_CS_SIGN h) = true).
Proof.
  unfold result. rewrite run_createSignedHeaders, run_computeSignHeaders. split.
  - eexists. split; [reflexivity|]. cbn [X_CS_SIGN Spec.signedHeaders]. split.
    + unfold Spec.signature, HMAC.hmac_sha256. now rewrite toHex_length, sha256_length.
    + apply toHex_lower.
  - destruct (credentialsPresent cfg); cbn [snd]; intros h E; [|discriminate E].
    injection E as <-. cbn [X_CS_SIGN Spec.signedHeaders]. split.
    + unfold Spec.signature, HMAC.hmac_sha256. now rewrite toHex_length, sha256_length.
    + apply toHex_lower.
Qed.

(** X2.  The expires header reads back to the clock reading of the call, and
    the bucket hashed in the first round is the floor of that same reading
    divided by 30000: whoever parses the header can rebuild the message of the
    first digest. *)
Theorem X2_expires_reads_back (cfg : Config) (w : Platform) (a : Lasttrade.SignArgs)
        (p : Index.SignParams) :
  (exists h, result w (Lasttrade.createSignedHeaders cfg a) = inr h
             /\ parseDecimal (X_CS_EXPIRES h) = Some (clock w)
             /\ forall t, parseDecimal (X_CS_EXPIRES h) = Some t ->
                  map (fun d => hdata (fst d))
                      (firstn 1 (digests (trace w (Lasttrade.createSignedHeaders cfg a))))
                  = [Buffer_from_utf8 (Number_toString (t / 30000))])
  /\ (forall h, result w (Index.computeSignHeaders cfg p) = inr h ->
        parseDecimal (X_CS_EXPIRES h) = Some (clock w)
        /\ forall t, parseDecimal (X_CS_EXPIRES h) = Some t ->
             map (fun d => hdata (fst d))
                 (firstn 1 (digests (trace w (Index.computeSignHeaders cfg p))))
             = [Buffer_from_utf8 (Number_toString (t / 30000))]).
Proof.
  unfold result, trace. rewrite run_createSignedHeaders, run_computeSignHeaders. split.
  - eexists. split; [reflexivity|]. cbn [X_CS_EXPIRES Spec.signedHeaders fst].
    rewrite parseDecimal_toString. split; [reflexivity|].
    intros t E. injection E as <-. reflexivity.
  - destruct (credentialsPresent cfg); cbn [fst snd]; intros h E; [|discriminate E].
    injection E as <-. cbn [X_CS_EXPIRES Spec.signedHeaders].
    rewrite parseDecimal_toString. split; [reflexivity|].
    intros t E. injection E as <-. reflexivity.
Qed.

(** X3.  A serialized query string only holds letters, digits and the
    characters [* - . _ + % = &]; in particular it never holds a question mark,
    a hash sign, a slash or a space, so it can be appended after [?] as is. *)
Theorem X3_query_alphabet (params : list (string * string)) (c : ascii) :
  allChars isQueryChar (URLSearchParams_toString params) = true
  /\ (In c (list_ascii_of_string (URLSearchParams_toString params)) ->
      c <> "?"%char /\ c <> "#"%char /\ c <> "/"%char /\ c <> " "%char).
Proof.
  pose proof (URLSearchParams_toString_query params) as H. split; [exact H|].
  unfold allChars in H. rewrite forallb_forall in H.
  intros Hin. specialize (H c Hin).
  repeat split; intros ->; discriminate H.
Qed.

(** X4.  The serialized query is empty exactly when there is no parameter, so
    the URL built by the API functions carries a [?] exactly when there is at
    least one parameter. *)
Theorem X4_query_empty_iff (params : list (string * string)) :
  (URLSearchParams_toString params = EmptyString <-> params = [])
  /\ (truthy (URLSearchParams_toString params) = true <-> params <> []).
Proof.
  pose proof (URLSearchParams_toString_truthy params) as H.
  destruct params as [|kv rest].
  - split; split; intros E; [reflexivity | reflexivity | discriminate E | congruence].
  - split; split; intros E.
    + rewrite E in H. discriminate H.
    + discriminate E.
    + discriminate.
    + exact H.
Qed.

(** X5.  Names and values made of letters, digits and [* - . _] only (such as
    a trading pair) are serialized verbatim: the query of one such parameter is
    name, [=], value. *)
Theorem X5_plain_parameters_verbatim (name value : string) :
  plainText name = true -> plainText value = true ->
  URLSearchParams_toString [(name, value)] = (name ++ "=" ++ value)%string.
Proof.
  intros Hn Hv. unfold URLSearchParams_toString. cbn [map String.concat].
  now rewrite !formEncode_plain.
Qed.

Lemma X5_plain_parameters_verbatim_witness :
  URLSearchParams_toString [("symbol", "PPOUSDT")] = "symbol=PPOUSDT".
Proof.
  exact (X5_plain_parameters_verbatim "symbol" "PPOUSDT" eq_refl eq_refl).
Defined.

(** X6.  Percent-encoding loses nothing: decoding an encoded name or value
    gives it back, so two different values of a parameter never serialize to
    the same query. *)
Theorem X6_encoding_round_trip (name a b : string) :
  formDecode (formEncode a) = a
  /\ (URLSearchParams_toString [(name, a)] = URLSearchParams_toString [(name, b)] -> a = b).
Proof.
  split; [apply formDecode_formEncode_inverse|].
  unfold URLSearchParams_toString. cbn [map String.concat]. intros E.
  assert (P : forall x y z : string, (x ++ y = x ++ z)%string -> y = z).
  { induction x as [|c x IH]; intros y z H; [exact H|].
    cbn [append] in H. injection H as H. now apply IH. }
  apply P in E. apply (P "=") in E.
  rewrite <- (formDecode_formEncode_inverse a), <- (formDecode_formEncode_inverse b).
  now rewrite E.
Qed.

(** X7.  [getCurrentOrdersV2] and [getLatestTrades] of index.ts sign exactly
    what they send: with both credentials present each sends one GET request,
    without a body, whose URL is the base URL, the path and, when there are
    parameters, [?] and the serialized query; the message of the final HMAC is
    that same serialized query, and the function returns or throws what the
    request returns or throws. *)
Theorem X7_index_url_query_is_signed (cfg : Config) (w : Platform)
        (params : list (string * string)) :
  credentialsPresent cfg = true ->
  (exists q,
      requests (trace w (IndexServer.getCurrentOrdersV2 cfg params)) = [q]
      /\ verb q = GET /\ data q = None /\ timeout q = Some 10000
      /\ url q = (BASE_URL cfg ++ "/trade/order/current/v2"
                  ++ match params with
                     | [] => EmptyString
                     | _ :: _ => "?" ++ URLSearchParams_toString params
                     end)%string
      /\ signedMessage (trace w (IndexServer.getCurrentOrdersV2 cfg params))
         = Some (Buffer_from_utf8 (URLSearchParams_toString params))
      /\ result w (IndexServer.getCurrentOrdersV2 cfg params) = network w q)
  /\ (exists q,
      requests (trace w (IndexServer.getLatestTrades cfg params)) = [q]
      /\ verb q = GET /\ data q = None /\ timeout q = Some 10000
      /\ url q = (BASE_URL cfg ++ "/trade/order/trades/latest"
                  ++ match params with
                     | [] => EmptyString
                     | _ :: _ => "?" ++ URLSearchParams_toString params
                     end)%string
      /\ signedMessage (trace w (IndexServer.getLatestTrades cfg params))
         = Some (Buffer_from_utf8 (URLSearchParams_toString params))
      /\ result w (IndexServer.getLatestTrades cfg params) = network w q).
Proof.
  intros Hc. unfold trace, result.
  rewrite run_getCurrentOrdersV2, run_getLatestTrades, Hc. cbn [fst snd].
  rewrite URLSearchParams_toString_truthy, app_empty_r.
  split; eexists; (split; [apply signerTrace_then_request|]);
    cbn [verb data timeout url signedRequest];
    repeat (split; [reflexivity|]);
    (split; [destruct params; reflexivity|]);
    (split; [apply signerTrace_then_request | reflexivity]).
Qed.

Lemma X7_index_url_query_is_signed_witness :
  exists q,
    requests (trace {| clock := 1700000000000; network := fun _ => inr JNull |}
                (IndexServer.getCurrentOrdersV2
                   {| BASE_URL := "https://api.coinstore.com/api"; API_KEY := "k";
                      API_SECRET := "s" |}
                   [("symbol", "PPOUSDT")])) = [q]
    /\ url q = "https://api.coinstore.com/api/trade/order/current/v2?symbol=PPOUSDT".
Proof.
  destruct (proj1 (X7_index_url_query_is_signed
                     {| BASE_URL := "https://api.coinstore.com/api"; API_KEY := "k";
                        API_SECRET := "s" |}
                     {| clock := 1700000000000; network := fun _ => inr JNull |}
                     [("symbol", "PPOUSDT")] eq_refl))
    as [q [Hq [_ [_ [_ [Hu _]]]]]].
  exists q. split; [exact Hq | exact Hu].
Defined.

(** X8.  Without both credentials the API functions of index.ts do nothing
    but throw: no clock reading, no digest and, above all, no request leaves
    the process. *)
Theorem X8_index_no_request_without_credentials (cfg : Config) (w : Platform)
        (params : list (string * string)) :
  credentialsPresent cfg = false ->
  run w (IndexServer.getCurrentOrdersV2 cfg params)
    = ([], inl (Error "Missing CS_API_KEY/CS_API_SECRET"))
  /\ run w (IndexServer.getLatestTrades cfg params)
     = ([], inl (Error "Missing CS_API_KEY/CS_API_SECRET"))
  /\ run w (Index.getBalances cfg) = ([], inl (Error "Missing CS_API_KEY/CS_API_SECRET")).
Proof.
  intros Hc.
  rewrite run_getCurrentOrdersV2, run_getLatestTrades, run_index_getBalances, Hc.
  repeat split.
Qed.

Lemma X8_index_no_request_without_credentials_witness :
  run {| clock := 1700000000000; network := fun _ => inr JNull |}
    (IndexServer.getCurrentOrdersV2
       {| BASE_URL := "https://api.coinstore.com/api"; API_KEY := "k";
          API_SECRET := EmptyString |}
       [("symbol", "PPOUSDT")])
  = ([], inl (Error "Missing CS_API_KEY/CS_API_SECRET")).
Proof.
  exact (proj1 (X8_index_no_request_without_credentials
                  {| BASE_URL := "https://api.coinstore.com/api"; API_KEY := "k";
                     API_SECRET := EmptyString |}
                  {| clock := 1700000000000; network := fun _ => inr JNull |}
                  [("symbol", "PPOUSDT")] eq_refl)).
Defined.

(** X9.  [apiGet] of lasttrade.js has no guard: for every configuration, also
    with an empty API key or secret, it sends exactly one GET request whose URL
    carries the serialized query after [?] (no [?] without parameters), signs
    that same query, puts the configured API key in the header even when it is
    empty, and returns or throws what the request returns or throws. *)
Theorem X9_lasttrade_apiGet_always_requests (cfg : Config) (w : Platform) (path : string)
        (params : list (string * string)) :
  exists q,
    requests (trace w (LasttradeServer.apiGet cfg path params)) = [q]
    /\ verb q = GET /\ data q = None /\ timeout q = Some 10000
    /\ url q = (BASE_URL cfg ++ path
                ++ match params with
                   | [] => EmptyString
                   | _ :: _ => "?" ++ URLSearchParams_toString params
                   end)%string
    /\ X_CS_APIKEY (headers q) = API_KEY cfg
    /\ signedMessage (trace w (LasttradeServer.apiGet cfg path params))
       = Some (Buffer_from_utf8 (URLSearchParams_toString params))
    /\ result w (LasttradeServer.apiGet cfg path params) = network w q
    /\ trace w (LasttradeServer.getCurrentOrders cfg params)
       = trace w (LasttradeServer.apiGet cfg "/v2/trade/order/active" params)
    /\ trace w (LasttradeServer.getLatestTrades cfg params)
       = trace w (LasttradeServer.apiGet cfg "/trade/match/accountMatches" params).
Proof.
  unfold trace, result. rewrite run_apiGet. cbn [fst snd].
  rewrite URLSearchParams_toString_truthy, app_empty_r.
  eexists. split; [apply signerTrace_then_request|].
  cbn [verb data timeout url headers signedRequest X_CS_APIKEY Spec.signedHeaders].
  repeat (split; [reflexivity|]).
  split; [destruct params; [now rewrite app_empty_r | reflexivity]|].
  split; [reflexivity|].
  split; [apply signerTrace_then_request|].
  repeat split.
Qed.


(** ** Routes *)

Lemma requests_app (a b : list Event) : requests (a ++ b) = requests a ++ requests b.
Proof.
  induction a as [|e a IH]; [reflexivity|].
  destruct e; cbn [app requests]; now rewrite IH.
Qed.


(** The common shape of a route: answer with the data, or log and answer 500. *)
Lemma route_outcome (w : Platform) (p : Prog Json) (label : string) (body : exn -> Json) :
  catch (andThen (perform p) res_json)
        (fun e => andThen (console_error label e) (fun _ => res_status_json 500 (body e))) w
  = match snd (run w p) with
    | inr d => (fst (run w p), inr (ok d))
    | inl e => (fst (run w p)
                ++ [EvConsole (LogText label); EvConsole (Lasttrade.describe e)],
                inr (failed (body e)))
    end.
Proof.
  unfold catch, andThen, perform, res_json, res_status_json, pure, console_error, console.
  destruct (run w p) as [tr [e|d]]; cbn [fst snd run app]; [reflexivity|].
  now rewrite app_nil_r.
Qed.


Lemma run_orders_fallback (cfg : Config) (sym : option string) (req : ExpressRequest)
      (w : Platform) :
  IndexServer.get_api_orders cfg sym req w
  = if credentialsPresent cfg then
      match network w (ordersRequest cfg sym req (clock w) "/trade/order/current/v2") with
      | inr d =>
          (signerTrace (API_SECRET cfg) (clock w) (ordersQuery sym req ++ EmptyString)
           ++ [EvRequest (ordersRequest cfg sym req (clock w) "/trade/order/current/v2")],
           inr (ok d))
      | inl e1 =>
          ((signerTrace (API_SECRET cfg) (clock w) (ordersQuery sym req ++ EmptyString)
            ++ [EvRequest (ordersRequest cfg sym req (clock w) "/trade/order/current/v2")])
           ++ [EvConsole (LogText "Error fetching orders:"); EvConsole (Lasttrade.describe e1)]
           ++ signerTrace (API_SECRET cfg) (clock w) (ordersQuery sym req ++ EmptyString)
           ++ [EvRequest (ordersRequest cfg sym req (clock w) "/trade/order/current")],
           inr (match network w (ordersRequest cfg sym req (clock w) "/trade/order/current") with
                | inr d => ok d
                | inl e2 => failed (JObject [("error", JString "Failed to fetch orders");
                                             ("message", errorData e2)])
                end))
      end
    else
      ([EvConsole (LogText "Error fetching orders:");
        EvConsole (LogText "Missing CS_API_KEY/CS_API_SECRET")],
       inr (failed (JObject [("error", JString "Failed to fetch orders");
                             ("message", JString "Missing CS_API_KEY/CS_API_SECRET")]))).
Proof.
  unfold IndexServer.get_api_orders, catch, andThen, perform, res_json, res_status_json, pure,
    console_error, console.
  fold (ordersQuery sym req).
  rewrite run_getCurrentOrdersV2, run_computeSignHeaders.
  unfold ordersRequest. cbn zeta.
  destruct (credentialsPresent cfg); cbn [fst snd run app].
  - destruct (network w _) as [e1|d]; cbn [fst snd run app]; [|reflexivity].
    unfold axios_get. cbn [run with_default Index.queryString Index.body].
    unfold signedRequest.
    destruct (network w _) as [e2|d2]; cbn [fst snd run app]; reflexivity.
  - reflexivity.
Qed.

(** X12.  With a credential missing, every route of index.ts answers 500 with
    the message "Missing CS_API_KEY/CS_API_SECRET" and sends no request at all;
    the orders route does not reach the remote service through its fallback
    either. *)
Theorem X12_index_routes_without_credentials (cfg : Config) (sym : option string)
        (w : Platform) (req : ExpressRequest) :
  credentialsPresent cfg = false ->
  IndexServer.get_api_balances cfg req w
  = ([EvConsole (LogText "Error fetching balances:");
      EvConsole (LogText "Missing CS_API_KEY/CS_API_SECRET")],
     inr (failed (JObject [("error", JString "Failed to fetch balances");
                           ("message", JString "Missing CS_API_KEY/CS_API_SECRET")])))
  /\ IndexServer.get_api_trades cfg req w
     = ([EvConsole (LogText "Error fetching trades:");
         EvConsole (LogText "Missing CS_API_KEY/CS_API_SECRET")],
        inr (failed (JObject [("error", JString "Failed to fetch trades");
                              ("message", JString "Missing CS_API_KEY/CS_API_SECRET")])))
  /\ IndexServer.get_api_orders cfg sym req w
     = ([EvConsole (LogText "Error fetching orders:");
         EvConsole (LogText "Missing CS_API_KEY/CS_API_SECRET")],
        inr (failed (JObject [("error", JString "Failed to fetch orders");
                              ("message", JString "Missing CS_API_KEY/CS_API_SECRET")])))
  /\ requests (fst (IndexServer.get_api_balances cfg req w)) = []
  /\ requests (fst (IndexServer.get_api_trades cfg req w)) = []
  /\ requests (fst (IndexServer.get_api_orders cfg sym req w)) = [].
Proof.
  intros Hc. rewrite run_orders_fallback.
  unfold IndexServer.get_api_balances, IndexServer.get_api_trades.
  rewrite !route_outcome, run_index_getBalances, run_getLatestTrades, Hc.
  repeat split.
Qed.

Lemma X12_index_routes_without_credentials_witness :
  requests (fst (IndexServer.get_api_orders
                   {| BASE_URL := "https://api.coinstore.com/api"; API_KEY := "k";
                      API_SECRET := EmptyString |}
                   (Some "PPOUSDT")
                   {| query := fun _ => None; requestBody := None |}
                   {| clock := 1700000000000; network := fun _ => inr JNull |})) = [].
Proof.
  exact (proj2 (proj2 (proj2 (proj2 (proj2
    (X12_index_routes_without_credentials
       {| BASE_URL := "https://api.coinstore.com/api"; API_KEY := "k";
          API_SECRET := EmptyString |}
       (Some "PPOUSDT")
       {| clock := 1700000000000; network := fun _ => inr JNull |}
       {| query := fun _ => None; requestBody := None |}
       eq_refl)))))).
Defined.



Lemma route_single_request (w : Platform) (p : Prog Json) (label s payload : string)
      (body : exn -> Json) (t : Z) (q : Request) :
  run w p = (signerTrace s t payload ++ [EvRequest q], network w q) ->
  requests (fst (catch (andThen (perform p) res_json)
                       (fun e => andThen (console_error label e)
                                         (fun _ => res_status_json 500 (body e))) w)) = [q]
  /\ snd (catch (andThen (perform p) res_json)
                (fun e => andThen (console_error label e)
                                  (fun _ => res_status_json 500 (body e))) w)
     = inr (match network w q with
            | inr d => ok d
            | inl e => failed (body e)
            end).
Proof.
  intros H. rewrite route_outcome, H. cbn [fst snd].
  destruct (network w q); cbn [fst snd]; rewrite ?requests_app; split; reflexivity.
Qed.

(** X14.  The five routes of lasttrade.js always answer, and each sends
    exactly one request whatever the configuration, also with an empty API key
    or secret (there is no guard in front of them): 200 with the data when the
    request succeeded, 500 with the cause under [error] when it failed. *)
Theorem X14_lasttrade_routes_always_request (cfg : Config) (w : Platform)
        (req : ExpressRequest) :
  (exists q, requests (fst (LasttradeServer.get_api_balances cfg req w)) = [q]
             /\ snd (LasttradeServer.get_api_balances cfg req w)
                = inr (match network w q with
                       | inr d => ok d
                       | inl e => failed (JObject [("error", errorData e)])
                       end))
  /\ (exists q, requests (fst (LasttradeServer.get_api_orders cfg req w)) = [q]
                /\ snd (LasttradeServer.get_api_orders cfg req w)
                   = inr (match network w q with
                          | inr d => ok d
                          | inl e => failed (JObject [("error", errorData e)])
                          end))
  /\ (exists q, requests (fst (LasttradeServer.get_api_trades cfg req w)) = [q]
                /\ snd (LasttradeServer.get_api_trades cfg req w)
                   = inr (match network w q with
                          | inr d => ok d
                          | inl e => failed (JObject [("error", errorData e)])
                          end))
  /\ (exists q, requests (fst (LasttradeServer.post_api_order_place cfg req w)) = [q]
                /\ data q = Some (match requestBody req with
                                  | Some b => b
                                  | None => JObject []
                                  end)
                /\ snd (LasttradeServer.post_api_order_place cfg req w)
                   = inr (match network w q with
                          | inr d => ok d
                          | inl e => failed (JObject [("error", errorData e)])
                          end))
  /\ (exists q, requests (fst (LasttradeServer.post_api_order_cancel cfg req w)) = [q]
                /\ data q = Some (match requestBody req with
                                  | Some b => b
                                  | None => JObject []
                                  end)
                /\ snd (LasttradeServer.post_api_order_cancel cfg req w)
                   = inr (match network w q with
                          | inr d => ok d
                          | inl e => failed (JObject [("error", errorData e)])
                          end)).
Proof.
  assert (Dp : LasttradeServer.placeOrder cfg None
               = LasttradeServer.placeOrder cfg (Some (JObject []))) by reflexivity.
  assert (Dc : LasttradeServer.cancelOrder cfg None
               = LasttradeServer.cancelOrder cfg (Some (JObject []))) by reflexivity.
  unfold LasttradeServer.get_api_balances, LasttradeServer.get_api_orders,
    LasttradeServer.get_api_trades, LasttradeServer.post_api_order_place,
    LasttradeServer.post_api_order_cancel.
  cbn zeta.
  split; [eexists; eapply route_single_request; apply run_lasttrade_getBalances|].
  split; [eexists; eapply route_single_request; apply run_apiGet|].
  split; [eexists; eapply route_single_request; apply run_apiGet|].
  destruct (requestBody req) as [b|]; [|rewrite Dp, Dc];
    unfold LasttradeServer.placeOrder, LasttradeServer.cancelOrder.
  - split.
    + pose proof (route_single_request w _ "Error /api/order/place:" _ _
                    (fun e => JObject [("error", errorData e)]) _ _
                    (run_apiPost cfg w "/trade/order/place" b [])) as [H1 H2].
      eexists. split; [exact H1|]. split; [reflexivity | exact H2].
    + pose proof (route_single_request w _ "Error /api/order/cancel:" _ _
                    (fun e => JObject [("error", errorData e)]) _ _
                    (run_apiPost cfg w "/trade/order/cancel" b [])) as [H1 H2].
      eexists. split; [exact H1|]. split; [reflexivity | exact H2].
  - split.
    + pose proof (route_single_request w _ "Error /api/order/place:" _ _
                    (fun e => JObject [("error", errorData e)]) _ _
                    (run_apiPost cfg w "/trade/order/place" (JObject []) [])) as [H1 H2].
      eexists. split; [exact H1|]. split; [reflexivity | exact H2].
    + pose proof (route_single_request w _ "Error /api/order/cancel:" _ _
                    (fun e => JObject [("error", errorData e)]) _ _
                    (run_apiPost cfg w "/trade/order/cancel" (JObject []) [])) as [H1 H2].
      eexists. split; [exact H1|]. split; [reflexivity | exact H2].
Qed.

Lemma or_else_truthy (v : option string) (d : string) :
  truthy (or_else v d) = match v with
                         | Some s => truthy s || truthy d
                         | None => truthy d
                         end.
Proof. destruct v as [s|]; [|reflexivity]. cbn [or_else]. destruct (truthy s) eqn:E; auto. Qed.

(** X15.  Loading the configuration.  Both credentials are present exactly
    when both environment variables are set to non-empty strings; an unset or
    empty variable counts as missing, and then every signing call of index.ts
    raises the configuration error.  The base URL is never empty: it is the
    variable when set and non-empty, the Coinstore API address otherwise. *)
Theorem X15_configuration_defaults (env : string -> option string) :
  (credentialsPresent (loadConfig env) = true
   <-> (exists k, env "CS_API_KEY" = Some k /\ k <> EmptyString)
       /\ (exists s, env "CS_API_SECRET" = Some s /\ s <> EmptyString))
  /\ (credentialsPresent (loadConfig env) = false ->
      forall w p, run w (Index.computeSignHeaders (loadConfig env) p)
                  = ([], inl (Error "Missing CS_API_KEY/CS_API_SECRET")))
  /\ truthy (BASE_URL (loadConfig env)) = true
  /\ (forall u, env "CS_BASE_URL" = Some u -> u <> EmptyString ->
                BASE_URL (loadConfig env) = u)
  /\ (env "CS_BASE_URL" = None \/ env "CS_BASE_URL" = Some EmptyString ->
      BASE_URL (loadConfig env) = "https://api.coinstore.com/api").
Proof.
  unfold credentialsPresent, loadConfig. cbn [API_KEY API_SECRET BASE_URL].
  split; [|split; [|split; [|split]]].
  - rewrite andb_true_iff, !or_else_truthy. cbn [truthy].
    destruct (env "CS_API_KEY") as [k|], (env "CS_API_SECRET") as [s|];
      rewrite ?orb_false_r, ?truthy_true; split.
    all: try (intros [H1 H2]; discriminate H1 || discriminate H2).
    all: try (intros [[k' [E _]] [s' [E' _]]]; discriminate E || discriminate E').
    + intros [H1 H2]. split; eexists; split; eauto.
    + intros [[k' [E Hk]] [s' [E' Hs']]]. injection E as <-. injection E' as <-. auto.
  - intros Hc w p.
    pose proof (run_computeSignHeaders (loadConfig env) w p) as R.
    unfold credentialsPresent, loadConfig in R. cbn [API_KEY API_SECRET] in R.
    rewrite Hc in R. exact R.
  - rewrite or_else_truthy. destruct (env "CS_BASE_URL"); [apply orb_true_r | reflexivity].
  - intros u E Hu. rewrite E. cbn [or_else]. apply truthy_true in Hu. now rewrite Hu.
  - intros [E|E]; rewrite E; reflexivity.
Qed.


(** X17.  What the signature does not cover.  The headers of a request of
    lasttrade.js depend on the query string, the body, the secret and the clock
    only: [apiGet] to two different paths, under two base URLs, carries the same
    four headers, and under two API keys the same signature.  In index.ts the
    orders and the trades call with the same parameters carry the same
    headers. *)
Theorem X17_path_is_not_signed (cfg1 cfg2 : Config) (w : Platform) (path1 path2 : string)
        (params : list (string * string)) :
  (exists q1 q2,
      requests (trace w (LasttradeServer.apiGet cfg1 path1 params)) = [q1]
      /\ requests (trace w (LasttradeServer.apiGet cfg1 path2 params)) = [q2]
      /\ headers q1 = headers q2)
  /\ (API_SECRET cfg1 = API_SECRET cfg2 ->
      map (fun q => (X_CS_SIGN (headers q), X_CS_EXPIRES (headers q)))
          (requests (trace w (LasttradeServer.apiGet cfg1 path1 params)))
      = map (fun q => (X_CS_SIGN (headers q), X_CS_EXPIRES (headers q)))
            (requests (trace w (LasttradeServer.apiGet cfg2 path2 params))))
  /\ map headers (requests (trace w (IndexServer.getCurrentOrdersV2 cfg1 params)))
     = map headers (requests (trace w (IndexServer.getLatestTrades cfg1 params))).
Proof.
  unfold trace. rewrite !run_apiGet, run_getCurrentOrdersV2, run_getLatestTrades.
  cbn [fst snd]. split; [|split].
  - eexists. eexists. repeat split.
  - intros Es. rewrite !requests_app. cbn [requests signerTrace app map headers signedRequest
      X_CS_SIGN X_CS_EXPIRES Spec.signedHeaders]. now rewrite Es.
  - destruct (credentialsPresent cfg1); cbn [fst]; [|reflexivity].
    rewrite !requests_app. reflexivity.
Qed.

(** X18.  The validity window.  A clock reading [t] falls in bucket [b]
    exactly when 30000 b <= t < 30000 b + 30000.  Two calls of
    [createSignedHeaders] whose readings fall in different buckets hash
    different bucket strings in the first round and return different expires
    headers. *)
Theorem X18_bucket_window (cfg : Config) (w1 w2 : Platform) (a : Lasttrade.SignArgs) :
  Math_floor_div (clock w1) 30000 <> Math_floor_div (clock w2) 30000 ->
  map (fun d => hdata (fst d))
      (firstn 1 (digests (trace w1 (Lasttrade.createSignedHeaders cfg a))))
  <> map (fun d => hdata (fst d))
         (firstn 1 (digests (trace w2 (Lasttrade.createSignedHeaders cfg a))))
  /\ expiresOf (result w1 (Lasttrade.createSignedHeaders cfg a))
     <> expiresOf (result w2 (Lasttrade.createSignedHeaders cfg a))
  /\ (forall b, Math_floor_div (clock w1) 30000 = b
                <-> 30000 * b <= clock w1 < 30000 * b + 30000).
Proof.
  intros Hne. unfold trace, result. rewrite !run_createSignedHeaders. cbn [fst snd].
  split; [|split].
  - cbn [signerTrace digests firstn map fst]. intros E. injection E as E.
    apply Buffer_from_utf8_inj, Number_toString_inj in E. exact (Hne E).
  - cbn [expiresOf X_CS_EXPIRES Spec.signedHeaders]. intros E. injection E as E.
    apply Number_toString_inj in E. apply Hne. now rewrite E.
  - intros b. unfold Math_floor_div. split.
    + intros <-. pose proof (Z.mul_div_le (clock w1) 30000 ltac:(lia)).
      pose proof (Z.mul_succ_div_gt (clock w1) 30000 ltac:(lia)). lia.
    + intros H. symmetry. apply (Z.div_unique (clock w1) 30000 b (clock w1 - 30000 * b)); lia.
Qed.

Lemma X18_bucket_window_witness :
  Math_floor_div 1700000009999 30000 <> Math_floor_div 1700000010000 30000
  /\ expiresOf (result {| clock := 1700000009999; network := fun _ => inr JNull |}
                  (Lasttrade.createSignedHeaders
                     {| BASE_URL := "https://api.coinstore.com/api"; API_KEY := "k";
                        API_SECRET := "s" |}
                     {| Lasttrade.queryString := None; Lasttrade.body := None |}))
     <> expiresOf (result {| clock := 1700000010000; network := fun _ => inr JNull |}
                     (Lasttrade.createSignedHeaders
                        {| BASE_URL := "https://api.coinstore.com/api"; API_KEY := "k";
                           API_SECRET := "s" |}
                        {| Lasttrade.queryString := None; Lasttrade.body := None |})).
Proof.
  assert (H : Math_floor_div 1700000009999 30000 <> Math_floor_div 1700000010000 30000)
    by (vm_compute; discriminate).
  split; [exact H|].
  exact (proj1 (proj2 (X18_bucket_window
    {| BASE_URL := "https://api.coinstore.com/api"; API_KEY := "k"; API_SECRET := "s" |}
    {| clock := 1700000009999; network := fun _ => inr JNull |}
    {| clock := 1700000010000; network := fun _ => inr JNull |}
    {| Lasttrade.queryString := None; Lasttrade.body := None |}
    H))).
Defined.

